(** * pkg/controller/csr_check.go: the CSR authorization decision

    A shallow embedding of the approver's decision functions
    ([authorizeCSR], [authorizeNodeClientCSR], [authorizeServingRenewal],
    [recentlyPendingCSRs], the Machine lookups and the SAN comparison
    utilities) and the properties the specification states about them.

    Conventions of the embedding:
    - a Go pair [(bool, error)] is [bool * option error], [None] being [nil];
    - a pointer that the code tests against [nil] is an [option];
    - [klog] calls only write to the log and are left out;
    - the TLS dial, certificate verification, the test for a "not found"
      API error and the textual forms of IPs and URLs belong to
      libraries, and [isNodeClientCert] to another file of the package:
      they are the fields of the class [Externals], so every theorem
      holds whatever these do; the API client is an argument, as in the
      code. *)

From Stdlib Require Import ZArith String Ascii List Permutation Lia.
From stdpp Require Import base decidable option list sorting gmap strings pretty.

Local Open Scope string_scope.
Local Open Scope Z_scope.

(** ** Go's [strings] package *)

Definition strings_HasPrefix (s prefix : string) : bool := String.prefix prefix s.

(** [s[n:]] *)
Fixpoint string_from (n : nat) (s : string) : string :=
  match n, s with
  | O, _ => s
  | S n', String _ s' => string_from n' s'
  | S _, EmptyString => EmptyString
  end.

Definition strings_TrimPrefix (s prefix : string) : string :=
  if strings_HasPrefix s prefix then string_from (String.length prefix) s else s.

Definition strings_Join (elems : list string) (sep : string) : string :=
  String.concat sep elems.

(** [len(s)] of a string, a slice: a Go [int]. *)
Definition len_string (s : string) : Z := Z.of_nat (String.length s).
Definition len {A} (l : list A) : Z := Z.of_nat (length l).

(** Go's [int] is 64 bits wide on every platform the approver is built for. *)
Definition int_max : Z := 2 ^ 63 - 1.
Definition int_wrap (z : Z) : Z := (z + 2 ^ 63) mod 2 ^ 64 - 2 ^ 63.

(** ** [sort.Strings]

    The library sorts in increasing byte-wise order.  A list has exactly
    one sorted arrangement for a total order, so any sorting function
    computes what [sort.Strings] leaves in the slice; merge sort is used. *)

Definition string_le (a b : string) : Prop := String.leb a b = true.

#[global] Instance string_le_dec : RelDecision string_le :=
  fun a b => decide (String.leb a b = true).

Definition sort_Strings (l : list string) : list string := merge_sort string_le l.

(** ** [k8s.io/apimachinery/pkg/util/sets]: [sets.String] *)

Module sets.
Definition String := gset string.
Definition NewString (items : list string) : gset string := list_to_set items.
Definition Has (s : gset string) (item : string) : bool := bool_decide (item ∈ s).
Definition HasAll (s : gset string) (items : list string) : bool := forallb (Has s) items.
Definition Equal (s1 s2 : gset string) : bool := bool_decide (s1 = s2).
End sets.

(** ** [time]

    A [time.Time] is modelled by the instant it denotes, counted in
    nanoseconds; [Add], [After] and [Before] are then the arithmetic of
    that line.  API timestamps carry no monotonic reading, so the
    comparisons are those of the wall clock. *)

Module time.
Definition Duration := Z.
Definition Time := Z.
Definition Nanosecond : Duration := 1.
Definition Second : Duration := 1000000000 * Nanosecond.
Definition Minute : Duration := 60 * Second.
Definition Hour : Duration := 60 * Minute.
Definition Add (t : Time) (d : Duration) : Time := t + d.
Definition After (t u : Time) : bool := u <? t.
Definition Before (t u : Time) : bool := t <? u.
End time.

(** ** Errors *)

Inductive operand : Type :=
| Str (s : string)
| Strs (l : list string)
| StrSet (s : gset string).

(** [StatusError] is an API error with its reason and message;
    [LibraryError] is any error of [net], [crypto/tls] or [crypto/x509];
    [Errorf] is [fmt.Errorf] with its format and operands. *)
Inductive error : Type :=
| StatusError (reason : string) (message : string)
| LibraryError (message : string)
| Errorf (format : string) (operands : list operand).


(** ** Constants of the package *)

Definition nodeUser : string := "system:node".
Definition nodeGroup : string := "system:nodes".
Definition nodeUserPrefix : string := nodeUser +:+ ":".

Definition maxPendingDelta : time.Duration := time.Hour.
Definition maxDiffBetweenPendingCSRsAndMachinesCount : Z := 100.

Definition nodeBootstrapperUsername : string :=
  "system:serviceaccount:openshift-machine-config-operator:node-bootstrapper".

Definition maxMachineClockSkew : time.Duration := 10 * time.Second.
Definition maxMachineDelta : time.Duration := 2 * time.Hour.

Definition nodeBootstrapperGroups : gset string :=
  sets.NewString [
    "system:serviceaccounts:openshift-machine-config-operator";
    "system:serviceaccounts";
    "system:authenticated"
  ].

(** ** API objects *)

Module corev1.
Definition NodeAddressType := string.
Definition NodeHostName : NodeAddressType := "Hostname".
Definition NodeInternalIP : NodeAddressType := "InternalIP".
Definition NodeExternalIP : NodeAddressType := "ExternalIP".
Definition NodeInternalDNS : NodeAddressType := "InternalDNS".
Definition NodeExternalDNS : NodeAddressType := "ExternalDNS".

Record NodeAddress := { Type_ : NodeAddressType; Address : string }.

Record ObjectReference := { Name : string }.

  (** [Port] is [Status.DaemonEndpoints.KubeletEndpoint.Port], an [int32]. *)
Record Node := {
    node_Name : string;
    node_Addresses : list NodeAddress;
    node_KubeletPort : Z
  }.
End corev1.

Module machinev1.
Record MachineStatus := {
    NodeRef : option corev1.ObjectReference;
    Addresses : list corev1.NodeAddress
  }.
Record Machine := {
    CreationTimestamp : time.Time;
    Status : MachineStatus
  }.
  (** [machinev1.Machine{}] *)
Definition zero : Machine :=
    {| CreationTimestamp := 0; Status := {| NodeRef := None; Addresses := [] |} |}.
End machinev1.

Module certificatesv1.
Definition KeyUsage := string.
Definition UsageDigitalSignature : KeyUsage := "digital signature".
Definition UsageKeyEncipherment : KeyUsage := "key encipherment".
Definition UsageServerAuth : KeyUsage := "server auth".
Definition UsageClientAuth : KeyUsage := "client auth".

Definition RequestConditionType := string.
Definition CertificateApproved : RequestConditionType := "Approved".
Definition CertificateDenied : RequestConditionType := "Denied".

Record CertificateSigningRequestCondition := { Type_ : RequestConditionType }.

Record CertificateSigningRequestSpec := {
    Username : string;
    Groups : list string;
    Usages : list KeyUsage
  }.

Record CertificateSigningRequestStatus := {
    Conditions : list CertificateSigningRequestCondition
  }.

Record CertificateSigningRequest := {
    Name : string;
    CreationTimestamp : time.Time;
    Spec : CertificateSigningRequestSpec;
    Status : CertificateSigningRequestStatus
  }.
End certificatesv1.

(** [net.IP] is a byte slice. *)
Definition IP := list Byte.byte.

Module pkix.
Record Name := { CommonName : string; Organization : list string }.
End pkix.

(** The client of the cluster API: [Get] of a Node by name either fills
    the Node in or returns an error. *)
Record Client := { Get : string -> corev1.Node + error }.

Record NodeClientCert := { Disabled : bool }.
Record ClusterMachineApproverConfig := { NodeClientCert_ : NodeClientCert }.

(** ** What the libraries and the rest of the package provide

    - [URL] and [URL_String]: a parsed [url.URL] and its [String] method.
      The elements of a [URIs] slice are the URLs [crypto/x509] parsed,
      none of them a nil pointer;
    - [IP_String]: [net.IP.String];
    - [CertPool]: [x509.CertPool];
    - [Verify]: [x509.Certificate.Verify] on the certificate's DER bytes,
      [None] when a chain to the roots is found;
    - [DialWithDialer]: [tls.DialWithDialer] on ["tcp"], given the timeout,
      the address, the roots and the server name; on success the peer
      certificates of the connection, the leaf first (a completed
      handshake always carries it);
    - [IsNotFound]: [apierrors.IsNotFound];
    - [isNodeClientCert]: the package's classifier of client-certificate
      requests, kept in another file of the package. *)

Module x509.
Record CertificateRequest {URL : Type} := {
    csr_Subject : pkix.Name;
    csr_DNSNames : list string;
    csr_EmailAddresses : list string;
    csr_IPAddresses : list IP;
    csr_URIs : list URL
  }.
Record Certificate {URL : Type} := {
    Raw : list Byte.byte;
    Subject : pkix.Name;
    DNSNames : list string;
    EmailAddresses : list string;
    IPAddresses : list IP;
    URIs : list URL
  }.
Arguments CertificateRequest : clear implicits.
Arguments Certificate : clear implicits.
Record VerifyOptions {CertPool : Type} := { Roots : option CertPool }.
Arguments VerifyOptions : clear implicits.
End x509.

Class Externals := {
  URL : Type;
  URL_String : URL -> string;
  IP_String : IP -> string;
  CertPool : Type;
  Verify : x509.Certificate URL -> x509.VerifyOptions CertPool -> option error;
  DialWithDialer :
    time.Duration -> string -> CertPool -> string ->
    (x509.Certificate URL * list (x509.Certificate URL)) + error;
  IsNotFound : error -> bool;
  isNodeClientCert :
    certificatesv1.CertificateSigningRequest -> x509.CertificateRequest URL -> bool
}.

(** [strconv.Itoa] and [net.JoinHostPort] *)

Definition strconv_Itoa (i : Z) : string := pretty i.

Fixpoint string_contains (c : ascii) (s : string) : bool :=
  match s with
  | EmptyString => false
  | String c' s' => if Ascii.eqb c c' then true else string_contains c s'
  end.

Definition net_JoinHostPort (host port : string) : string :=
  if string_contains ":" host
  then "[" +:+ host +:+ "]:" +:+ port
  else host +:+ ":" +:+ port.

(** ** The functions of csr_check.go *)

Section Approver.
Context `{Externals}.

Local Abbreviation CSR := certificatesv1.CertificateSigningRequest.
Local Abbreviation CertificateRequest := (x509.CertificateRequest URL).
Local Abbreviation Certificate := (x509.Certificate URL).

Definition validateCSRContents (req : CSR) (csr : CertificateRequest)
  : string * option error :=
  let username := certificatesv1.Username (certificatesv1.Spec req) in
  let groups := certificatesv1.Groups (certificatesv1.Spec req) in
  let usages := certificatesv1.Usages (certificatesv1.Spec req) in
  if negb (strings_HasPrefix username nodeUserPrefix) then ("", None) else
  let nodeAsking := strings_TrimPrefix username nodeUserPrefix in
  if len_string nodeAsking =? 0 then ("", None) else
  if len groups <? 2 then ("", Some (Errorf "Too few groups" [])) else
  let groupSet := sets.NewString groups in
  if negb (sets.HasAll groupSet [nodeGroup; "system:authenticated"%string]) then
    ("", Some (Errorf "%q not in %q and %q"
                 [StrSet groupSet; Str "system:authenticated"; Str nodeGroup]))
  else
  if negb (len usages =? 3) then ("", Some (Errorf "Too few usages" [])) else
  let usageSet := sets.NewString usages in
  if negb (sets.HasAll usageSet
             [certificatesv1.UsageDigitalSignature;
              certificatesv1.UsageKeyEncipherment;
              certificatesv1.UsageServerAuth]) then
    ("", Some (Errorf "%q is missing usages" [StrSet usageSet]))
  else
  if negb (String.eqb (pkix.CommonName (x509.csr_Subject csr)) username) then
    ("", Some (Errorf "Mismatched CommonName %s != %s"
                 [Str (pkix.CommonName (x509.csr_Subject csr)); Str username]))
  else
  let hasOrg :=
    existsb (fun org => String.eqb org nodeGroup)
            (pkix.Organization (x509.csr_Subject csr)) in
  if negb hasOrg then
    ("", Some (Errorf "Organization %v doesn't include %s"
                 [Strs (pkix.Organization (x509.csr_Subject csr)); Str nodeGroup]))
  else (nodeAsking, None).

Definition isReqFromNodeBootstrapper (req : CSR) : bool :=
  String.eqb (certificatesv1.Username (certificatesv1.Spec req)) nodeBootstrapperUsername
  && sets.Equal nodeBootstrapperGroups
       (sets.NewString (certificatesv1.Groups (certificatesv1.Spec req))).

Fixpoint findMatchingMachineFromNodeRef (nodeName : string)
  (machines : list machinev1.Machine) : machinev1.Machine * bool :=
  match machines with
  | [] => (machinev1.zero, false)
  | machine :: rest =>
      match machinev1.NodeRef (machinev1.Status machine) with
      | Some ref =>
          if String.eqb (corev1.Name ref) nodeName then (machine, true)
          else findMatchingMachineFromNodeRef nodeName rest
      | None => findMatchingMachineFromNodeRef nodeName rest
      end
  end.

(** The inner loop of [findMatchingMachineFromInternalDNS]: does one of
    the addresses make the function return? *)
Definition isInternalDNSOf (nodeName : string) (address : corev1.NodeAddress) : bool :=
  String.eqb (corev1.Type_ address) corev1.NodeInternalDNS
  && String.eqb (corev1.Address address) nodeName.

Fixpoint findMatchingMachineFromInternalDNS (nodeName : string)
  (machines : list machinev1.Machine) : machinev1.Machine * bool :=
  match machines with
  | [] => (machinev1.zero, false)
  | machine :: rest =>
      if existsb (isInternalDNSOf nodeName)
                 (machinev1.Addresses (machinev1.Status machine))
      then (machine, true)
      else findMatchingMachineFromInternalDNS nodeName rest
  end.

Definition inTimeSpan (start end_ check : time.Time) : bool :=
  time.After check start && time.Before check end_.

Fixpoint isApproved_conditions
  (conditions : list certificatesv1.CertificateSigningRequestCondition) : bool :=
  match conditions with
  | [] => false
  | condition :: rest =>
      if String.eqb (certificatesv1.Type_ condition) certificatesv1.CertificateApproved
      then true
      else isApproved_conditions rest
  end.

Definition isApproved (csr : CSR) : bool :=
  isApproved_conditions (certificatesv1.Conditions (certificatesv1.Status csr)).

(** One turn of the loop of [recentlyPendingCSRs]. *)
Definition recentlyPending_step (start end_ : time.Time) (pending : Z) (csr : CSR) : Z :=
  if negb (inTimeSpan start end_ (certificatesv1.CreationTimestamp csr)) then pending
  else if negb (isApproved csr) then int_wrap (pending + 1)
  else pending.

(** [now] is the reading of the package's clock variable [now]. *)
Definition recentlyPendingCSRs (now : time.Time) (csrs : list CSR) : Z :=
  let currentTime := now in
  let start := time.Add currentTime (- maxPendingDelta) in
  let end_ := time.Add currentTime maxMachineClockSkew in
  fold_left (recentlyPending_step start end_) csrs 0.

(** Lines 288 to 309 of [authorizeNodeClientCSR]: what follows the Node
    lookup. *)
Definition authorizeNodeClientCSR_machine (machines : list machinev1.Machine)
  (req : CSR) (nodeName : string) : bool * option error :=
  let '(nodeMachine, ok) := findMatchingMachineFromInternalDNS nodeName machines in
  if negb ok then
    (false, Some (Errorf "failed to find machine for node %s" [Str nodeName]))
  else
  match machinev1.NodeRef (machinev1.Status nodeMachine) with
  | Some _ => (false, None)
  | None =>
      let start := time.Add (machinev1.CreationTimestamp nodeMachine) (- maxMachineClockSkew) in
      let end_ := time.Add (machinev1.CreationTimestamp nodeMachine) maxMachineDelta in
      if negb (inTimeSpan start end_ (certificatesv1.CreationTimestamp req))
      then (false, None)
      else (true, None)
  end.

Definition authorizeNodeClientCSR (c : Client) (machines : list machinev1.Machine)
  (req : CSR) (csr : CertificateRequest) : bool * option error :=
  if negb (isReqFromNodeBootstrapper req) then (false, None) else
  let nodeName := strings_TrimPrefix (pkix.CommonName (x509.csr_Subject csr)) nodeUserPrefix in
  if len_string nodeName =? 0 then (false, None) else
  match Get c nodeName with
  | inr err =>
      if negb (IsNotFound err)
      then (false, Some (Errorf "failed get existing nodes %s" [Str nodeName]))
      else authorizeNodeClientCSR_machine machines req nodeName
  | inl _ => (false, None)
  end.

Fixpoint nodeInternalIP_addresses (node_name : string)
  (addresses : list corev1.NodeAddress) : string * option error :=
  match addresses with
  | [] => ("", Some (Errorf "node %s has no internal addresses" [Str node_name]))
  | address :: rest =>
      if String.eqb (corev1.Type_ address) corev1.NodeInternalIP
      then (corev1.Address address, None)
      else nodeInternalIP_addresses node_name rest
  end.

Definition nodeInternalIP (node : corev1.Node) : string * option error :=
  nodeInternalIP_addresses (corev1.node_Name node) (corev1.node_Addresses node).

Definition getServingCert (c : Client) (nodeName : string) (ca : option CertPool)
  : option Certificate * option error :=
  match ca with
  | None => (None, Some (Errorf "no CA found: will not retrieve serving cert" []))
  | Some pool =>
      match Get c nodeName with
      | inr err => (None, Some err)
      | inl node =>
          match nodeInternalIP node with
          | (_, Some err) => (None, Some err)
          | (host, None) =>
              let port := strconv_Itoa (corev1.node_KubeletPort node) in
              let kubelet := net_JoinHostPort host port in
              match DialWithDialer (30 * time.Second) kubelet pool host with
              | inr err => (None, Some err)
              | inl (cert, _) => (Some cert, None)
              end
          end
      end
  end.

(** [reflect.DeepEqual] on the two sorted slices.  Both are made with
    [make] here, and in [equalURLs] and [equalIPAddresses] both are nil or
    both are not, so the comparison is that of the elements. *)
Definition equalStrings (a b : list string) : bool :=
  let aCopy := sort_Strings a in
  let bCopy := sort_Strings b in
  bool_decide (aCopy = bCopy).

Definition equalURLs (a b : list URL) : bool :=
  if negb (len a =? len b) then false else
  let aStrings := sort_Strings (map URL_String a) in
  let bStrings := sort_Strings (map URL_String b) in
  bool_decide (aStrings = bStrings).

Definition equalIPAddresses (a b : list IP) : bool :=
  if negb (len a =? len b) then false else
  let aStrings := sort_Strings (map IP_String a) in
  let bStrings := sort_Strings (map IP_String b) in
  bool_decide (aStrings = bStrings).

Definition authorizeServingRenewal (nodeName : string)
  (csr : option CertificateRequest) (currentCert : option Certificate)
  (options : x509.VerifyOptions CertPool) : option error :=
  match csr, currentCert, x509.Roots options with
  | Some csr, Some currentCert, Some _ =>
      match Verify currentCert options with
      | Some err => Some err
      | None =>
          if negb (String.eqb (pkix.CommonName (x509.Subject currentCert))
                              (nodeUser +:+ ":" +:+ nodeName))
          then Some (Errorf "current serving cert has bad common name" [])
          else
          if negb (String.eqb (pkix.CommonName (x509.Subject currentCert))
                              (pkix.CommonName (x509.csr_Subject csr)))
          then Some (Errorf "current serving cert and CSR common name mismatch" [])
          else
          let match_ :=
            equalStrings (x509.DNSNames currentCert) (x509.csr_DNSNames csr)
            && equalStrings (x509.EmailAddresses currentCert) (x509.csr_EmailAddresses csr)
            && equalIPAddresses (x509.IPAddresses currentCert) (x509.csr_IPAddresses csr)
            && equalURLs (x509.URIs currentCert) (x509.csr_URIs csr) in
          if negb match_
          then Some (Errorf "CSR Subject Alternate Name values do not match current certificate" [])
          else None
      end
  | _, _, _ => Some (Errorf "CSR, serving cert, or CA not provided" [])
  end.

(** Lines 168 to 188 of [authorizeCSR]: [true] when the renewal flow
    returns the approval of line 177, [false] when control reaches the
    fall-back. *)
Definition authorizeCSR_renewal (c : Client) (nodeAsking : string)
  (csr : CertificateRequest) (ca : option CertPool) : bool :=
  match ca with
  | None => false
  | Some _ =>
      match getServingCert c nodeAsking ca with
      | (Some servingCert, None) =>
          match authorizeServingRenewal nodeAsking (Some csr) (Some servingCert)
                  {| x509.Roots := ca |} with
          | None => true
          | Some _ => false
          end
      | _ => false
      end
  end.

(** The loop over the Machine's addresses for one DNS SAN (lines 211 to
    222).  The [break] leaves the [switch] only, so every address is
    visited; the state is [(attemptedAddresses, foundSan)]. *)
Definition dnsSAN_step (san : string) (st : list string * bool)
  (addr : corev1.NodeAddress) : list string * bool :=
  let '(attemptedAddresses, foundSan) := st in
  if String.eqb (corev1.Type_ addr) corev1.NodeInternalDNS
     || String.eqb (corev1.Type_ addr) corev1.NodeExternalDNS
     || String.eqb (corev1.Type_ addr) corev1.NodeHostName
  then
    if String.eqb san (corev1.Address addr)
    then (attemptedAddresses, true)
    else ((attemptedAddresses ++ [corev1.Address addr])%list, foundSan)
  else st.

(** Lines 205 to 231: [None] when the loop runs to its end. *)
Fixpoint checkDNSNames (addresses : list corev1.NodeAddress) (sans : list string)
  : option error :=
  match sans with
  | [] => None
  | san :: rest =>
      if len_string san =? 0 then checkDNSNames addresses rest else
      let '(attemptedAddresses, foundSan) :=
        fold_left (dnsSAN_step san) addresses ([], false) in
      if negb foundSan then
        Some (Errorf "DNS name '%s' not in machine names: %s"
                [Str san; Str (strings_Join attemptedAddresses " ")])
      else checkDNSNames addresses rest
  end.

(** Lines 239 to 250, for one IP SAN. *)
Definition ipSAN_step (san : IP) (st : list string * bool)
  (addr : corev1.NodeAddress) : list string * bool :=
  let '(attemptedAddresses, foundSan) := st in
  if String.eqb (corev1.Type_ addr) corev1.NodeInternalIP
     || String.eqb (corev1.Type_ addr) corev1.NodeExternalIP
  then
    if String.eqb (IP_String san) (corev1.Address addr)
    then (attemptedAddresses, true)
    else ((attemptedAddresses ++ [corev1.Address addr])%list, foundSan)
  else st.

(** Lines 233 to 259. *)
Fixpoint checkIPAddresses (addresses : list corev1.NodeAddress) (sans : list IP)
  : option error :=
  match sans with
  | [] => None
  | san :: rest =>
      if len san =? 0 then checkIPAddresses addresses rest else
      let '(attemptedAddresses, foundSan) :=
        fold_left (ipSAN_step san) addresses ([], false) in
      if negb foundSan then
        Some (Errorf "IP address '%s' not in machine addresses: %s"
                [Str (IP_String san); Str (strings_Join attemptedAddresses " ")])
      else checkIPAddresses addresses rest
  end.

(** Lines 190 to 261 of [authorizeCSR]: the machine-api authorization. *)
Definition authorizeCSR_machineAPI (machines : list machinev1.Machine)
  (csr : CertificateRequest) (nodeAsking : string) : bool * option error :=
  let '(targetMachine, ok) := findMatchingMachineFromNodeRef nodeAsking machines in
  if negb ok then (false, Some (Errorf "Unable to find machine for node" [])) else
  let addresses := machinev1.Addresses (machinev1.Status targetMachine) in
  match checkDNSNames addresses (x509.csr_DNSNames csr) with
  | Some err => (false, Some err)
  | None =>
      match checkIPAddresses addresses (x509.csr_IPAddresses csr) with
      | Some err => (false, Some err)
      | None => (true, None)
      end
  end.

Definition authorizeCSR (c : Client) (config : ClusterMachineApproverConfig)
  (machines : list machinev1.Machine) (req : option CSR)
  (csr : option CertificateRequest) (ca : option CertPool) : bool * option error :=
  match req, csr with
  | Some req, Some csr =>
      if isNodeClientCert req csr then
        if Disabled (NodeClientCert_ config) then
          (false, Some (Errorf "CSR %s for node client cert rejected as the flow is disabled"
                          [Str (certificatesv1.Name req)]))
        else authorizeNodeClientCSR c machines req csr
      else
      let '(nodeAsking, err) := validateCSRContents req csr in
      if String.eqb nodeAsking "" || bool_decide (is_Some err) then (false, None) else
      if authorizeCSR_renewal c nodeAsking csr ca then (true, None) else
      authorizeCSR_machineAPI machines csr nodeAsking
  | _, _ => (false, None)
  end.

(** [csrSANs] and [certSANs]: the SAN values as one slice of strings,
    for the log. *)
Definition csrSANs (csr : option CertificateRequest) : list string :=
  let sans := [] in
  match csr with
  | None => sans
  | Some csr =>
      let sans := (sans ++ x509.csr_DNSNames csr)%list in
      let sans := (sans ++ x509.csr_EmailAddresses csr)%list in
      let sans := fold_left (fun sans ip => (sans ++ [IP_String ip])%list)
                    (x509.csr_IPAddresses csr) sans in
      let sans := fold_left (fun sans uri => (sans ++ [URL_String uri])%list)
                    (x509.csr_URIs csr) sans in
      sans
  end.

Definition certSANs (cert : option Certificate) : list string :=
  let sans := [] in
  match cert with
  | None => sans
  | Some cert =>
      let sans := (sans ++ x509.DNSNames cert)%list in
      let sans := (sans ++ x509.EmailAddresses cert)%list in
      let sans := fold_left (fun sans ip => (sans ++ [IP_String ip])%list)
                    (x509.IPAddresses cert) sans in
      let sans := fold_left (fun sans uri => (sans ++ [URL_String uri])%list)
                    (x509.URIs cert) sans in
      sans
  end.

End Approver.

(** ** The specification's vocabulary *)

Section Vocabulary.
Context `{Externals}.

Local Abbreviation CSR := certificatesv1.CertificateSigningRequest.
Local Abbreviation CertificateRequest := (x509.CertificateRequest URL).
Local Abbreviation Certificate := (x509.Certificate URL).

(** A node-serving request (section 4.3 of the specification), asked by
    the node [askingName]. *)
Definition servingShape (req : CSR) (csr : CertificateRequest) (askingName : string) : Prop :=
  let spec := certificatesv1.Spec req in
  certificatesv1.Username spec = "system:node:" +:+ askingName /\
  askingName <> "" /\
  In "system:nodes"%string (certificatesv1.Groups spec) /\
  In "system:authenticated"%string (certificatesv1.Groups spec) /\
  length (certificatesv1.Usages spec) = 3%nat /\
  In "digital signature"%string (certificatesv1.Usages spec) /\
  In "key encipherment"%string (certificatesv1.Usages spec) /\
  In "server auth"%string (certificatesv1.Usages spec) /\
  pkix.CommonName (x509.csr_Subject csr) = certificatesv1.Username spec /\
  In "system:nodes"%string (pkix.Organization (x509.csr_Subject csr)).

(** The requester is the node bootstrapper: the exact username and the
    exact group set. *)
Definition fromNodeBootstrapper (req : CSR) : Prop :=
  let spec := certificatesv1.Spec req in
  certificatesv1.Username spec =
    "system:serviceaccount:openshift-machine-config-operator:node-bootstrapper" /\
  forall g : string,
    In g (certificatesv1.Groups spec) <->
    g = "system:serviceaccounts:openshift-machine-config-operator" \/
    g = "system:serviceaccounts" \/
    g = "system:authenticated".

(** The node name of a bootstrap request. *)
Definition bootstrapNodeName (csr : CertificateRequest) : string :=
  strings_TrimPrefix (pkix.CommonName (x509.csr_Subject csr)) "system:node:".

(** The API answers "not found" for the Node; the Node exists; the lookup
    fails otherwise. *)
Definition nodeNotFound (c : Client) (name : string) : Prop :=
  exists err, Get c name = inr err /\ IsNotFound err = true.

Definition nodeExists (c : Client) (name : string) : Prop :=
  exists node, Get c name = inl node.

Definition nodeLookupFails (c : Client) (name : string) : Prop :=
  exists err, Get c name = inr err /\ IsNotFound err = false.

(** The Machine has an InternalDNS address equal to the name. *)
Definition hasInternalDNS (name : string) (m : machinev1.Machine) : Prop :=
  exists addr, In addr (machinev1.Addresses (machinev1.Status m)) /\
    corev1.Type_ addr = "InternalDNS" /\ corev1.Address addr = name.

(** [m] is the first Machine of the snapshot with that InternalDNS address. *)
Definition firstWithInternalDNS (name : string) (machines : list machinev1.Machine)
  (m : machinev1.Machine) : Prop :=
  exists before after, machines = (before ++ m :: after)%list /\
    Forall (fun m' => ~ hasInternalDNS name m') before /\ hasInternalDNS name m.

(** The Machine's NodeRef names the node. *)
Definition hasNodeRef (name : string) (m : machinev1.Machine) : Prop :=
  exists ref, machinev1.NodeRef (machinev1.Status m) = Some ref /\ corev1.Name ref = name.

Definition firstWithNodeRef (name : string) (machines : list machinev1.Machine)
  (m : machinev1.Machine) : Prop :=
  exists before after, machines = (before ++ m :: after)%list /\
    Forall (fun m' => ~ hasNodeRef name m') before /\ hasNodeRef name m.

(** Every non-empty DNS SAN and every non-empty IP SAN of the request is
    an address of the Machine, of a fitting type. *)
Definition dnsSANOnMachine (m : machinev1.Machine) (san : string) : Prop :=
  exists addr, In addr (machinev1.Addresses (machinev1.Status m)) /\
    (corev1.Type_ addr = "InternalDNS" \/ corev1.Type_ addr = "ExternalDNS"
     \/ corev1.Type_ addr = "Hostname") /\
    corev1.Address addr = san.

Definition ipSANOnMachine (m : machinev1.Machine) (san : IP) : Prop :=
  exists addr, In addr (machinev1.Addresses (machinev1.Status m)) /\
    (corev1.Type_ addr = "InternalIP" \/ corev1.Type_ addr = "ExternalIP") /\
    corev1.Address addr = IP_String san.

Definition sansOnMachine (csr : CertificateRequest) (m : machinev1.Machine) : Prop :=
  (forall san, In san (x509.csr_DNSNames csr) -> san <> "" -> dnsSANOnMachine m san) /\
  (forall san, In san (x509.csr_IPAddresses csr) -> san <> [] -> ipSANOnMachine m san).

(** The addresses of the Machine that a DNS SAN, an IP SAN is compared
    with, in the Machine's order. *)
Definition machineDNSNames (m : machinev1.Machine) : list string :=
  map corev1.Address
    (filter (fun addr => corev1.Type_ addr = "InternalDNS"
                         \/ corev1.Type_ addr = "ExternalDNS"
                         \/ corev1.Type_ addr = "Hostname")
            (machinev1.Addresses (machinev1.Status m))).

Definition machineIPs (m : machinev1.Machine) : list string :=
  map corev1.Address
    (filter (fun addr => corev1.Type_ addr = "InternalIP"
                         \/ corev1.Type_ addr = "ExternalIP")
            (machinev1.Addresses (machinev1.Status m))).

(** The renewal flow approves: a CA pool is supplied, the kubelet probe
    returns the current serving certificate and the renewal check passes. *)
Definition renewalApproves (c : Client) (askingName : string)
  (csr : CertificateRequest) (ca : option CertPool) : Prop :=
  exists pool cert, ca = Some pool /\
    getServingCert c askingName ca = (Some cert, None) /\
    authorizeServingRenewal askingName (Some csr) (Some cert) {| x509.Roots := ca |} = None.

(** Some Machine of the snapshot has the InternalDNS address, no NodeRef,
    and a creation time with [created] in the closed window around it. *)
Definition someUnboundMachineInClosedWindow (name : string)
  (machines : list machinev1.Machine) (created : time.Time) : Prop :=
  exists m, In m machines /\ hasInternalDNS name m /\
    machinev1.NodeRef (machinev1.Status m) = None /\
    machinev1.CreationTimestamp m - 10 * 1000000000 <= created /\
    created <= machinev1.CreationTimestamp m + 2 * 3600 * 1000000000.

(** "Recent" and "pending" of the backlog throttle. *)
Definition recent (now : time.Time) (csr : CSR) : Prop :=
  now - 3600 * 1000000000 < certificatesv1.CreationTimestamp csr
  /\ certificatesv1.CreationTimestamp csr < now + 10 * 1000000000.

Definition pending (csr : CSR) : Prop :=
  Forall (fun cond => certificatesv1.Type_ cond <> "Approved")
         (certificatesv1.Conditions (certificatesv1.Status csr)).

Definition recentlyPending (now : time.Time) (csr : CSR) : Prop :=
  recent now csr /\ pending csr.

#[global] Instance recentlyPending_dec now csr : Decision (recentlyPending now csr).
Proof. unfold recentlyPending, recent, pending. apply _. Defined.

(** A slice holds at most [int_max] elements. *)
Definition slice {A} (l : list A) : Prop := len l <= int_max.

(** The canonical strings of the four SAN lists. *)
Definition sameSANs (cert : Certificate) (csr : CertificateRequest) : Prop :=
  Permutation (x509.DNSNames cert) (x509.csr_DNSNames csr) /\
  Permutation (x509.EmailAddresses cert) (x509.csr_EmailAddresses csr) /\
  Permutation (map IP_String (x509.IPAddresses cert)) (map IP_String (x509.csr_IPAddresses csr)) /\
  Permutation (map URL_String (x509.URIs cert)) (map URL_String (x509.csr_URIs csr)).

(** The properties asked of a SAN comparison. *)
Definition symmetric_eq {A} (eq : list A -> list A -> bool) : Prop :=
  forall a b, eq a b = eq b a.
Definition reflexive_eq {A} (eq : list A -> list A -> bool) : Prop :=
  forall a, eq a a = true.
Definition permutation_invariant {A} (eq : list A -> list A -> bool) : Prop :=
  forall a a' b b', Permutation a a' -> Permutation b b' -> eq a b = eq a' b'.
Definition length_sensitive {A} (eq : list A -> list A -> bool) : Prop :=
  forall a b, length a <> length b -> eq a b = false.

End Vocabulary.

(** ** The cluster of the specification's scenarios *)

(** Modelled from the spec: [isNodeClientCert] is defined in a file of
    the package other than csr_check.go; this is the node-client-bootstrap
    shape of section 4.3 of the specification: the bootstrapper's
    username, exactly its three groups, a common name that is the
    node-user prefix followed by a non-empty name, and exactly the usages
    digital signature, key encipherment and client auth. *)
Definition isNodeClientCert_spec {URL : Type}
  (req : certificatesv1.CertificateSigningRequest)
  (csr : x509.CertificateRequest URL) : bool :=
  let spec := certificatesv1.Spec req in
  let cn := pkix.CommonName (x509.csr_Subject csr) in
  String.eqb (certificatesv1.Username spec) nodeBootstrapperUsername
  && sets.Equal (sets.NewString (certificatesv1.Groups spec)) nodeBootstrapperGroups
  && strings_HasPrefix cn nodeUserPrefix
  && negb (String.eqb (strings_TrimPrefix cn nodeUserPrefix) "")
  && sets.Equal (sets.NewString (certificatesv1.Usages spec))
       (sets.NewString [certificatesv1.UsageDigitalSignature;
                        certificatesv1.UsageKeyEncipherment;
                        certificatesv1.UsageClientAuth]).

(** The textual form of the 4-byte addresses the scenarios use. *)
Definition dotted_quad (ip : IP) : string :=
  match ip with
  | [] => "<nil>"
  | [a; b; c; d] =>
      pretty (Byte.to_N a) +:+ "." +:+ pretty (Byte.to_N b) +:+ "."
      +:+ pretty (Byte.to_N c) +:+ "." +:+ pretty (Byte.to_N d)
  | _ => "?"
  end.

(** 2024-01-01T00:00:00Z *)
Definition T0 : time.Time := 1704067200 * time.Second.

Definition ip_10_0_1_6 : IP := [Byte.x0a; Byte.x00; Byte.x01; Byte.x06].
Definition ip_10_0_2_2 : IP := [Byte.x0a; Byte.x00; Byte.x02; Byte.x02].

Definition machine_m1 : machinev1.Machine :=
  {| machinev1.CreationTimestamp := T0;
     machinev1.Status :=
       {| machinev1.NodeRef := None;
          machinev1.Addresses :=
            [ {| corev1.Type_ := corev1.NodeInternalDNS; corev1.Address := "ip-10-0-1-5" |} ] |} |}.

(** A Machine with the address of [machine_m1] that has joined already. *)
Definition machine_m1_bound : machinev1.Machine :=
  {| machinev1.CreationTimestamp := T0;
     machinev1.Status :=
       {| machinev1.NodeRef := Some {| corev1.Name := "ip-10-0-1-5" |};
          machinev1.Addresses :=
            [ {| corev1.Type_ := corev1.NodeInternalDNS; corev1.Address := "ip-10-0-1-5" |} ] |} |}.

Definition machine_m2 : machinev1.Machine :=
  {| machinev1.CreationTimestamp := T0;
     machinev1.Status :=
       {| machinev1.NodeRef := Some {| corev1.Name := "ip-10-0-1-6" |};
          machinev1.Addresses :=
            [ {| corev1.Type_ := corev1.NodeInternalIP; corev1.Address := "10.0.1.6" |};
              {| corev1.Type_ := corev1.NodeInternalDNS; corev1.Address := "ip-10-0-1-6" |} ] |} |}.

Definition node_6 : corev1.Node :=
  {| corev1.node_Name := "ip-10-0-1-6";
     corev1.node_Addresses :=
       [ {| corev1.Type_ := corev1.NodeInternalIP; corev1.Address := "10.0.1.6" |} ];
     corev1.node_KubeletPort := 10250 |}.

(** The API of the cluster: one Node, [ip-10-0-1-6]. *)
Definition cluster : Client :=
  {| Get := fun name =>
       if String.eqb name "ip-10-0-1-6" then inl node_6
       else inr (StatusError "NotFound" ("nodes " +:+ name +:+ " not found")) |}.

(** An API that times out. *)
Definition cluster_down : Client :=
  {| Get := fun _ => inr (StatusError "Timeout" "the server was unable to return a response in time") |}.

Definition bootstrapRequest (created : time.Time) : certificatesv1.CertificateSigningRequest :=
  {| certificatesv1.Name := "csr-bootstrap";
     certificatesv1.CreationTimestamp := created;
     certificatesv1.Spec :=
       {| certificatesv1.Username := nodeBootstrapperUsername;
          certificatesv1.Groups :=
            [ "system:serviceaccounts:openshift-machine-config-operator";
              "system:serviceaccounts"; "system:authenticated" ];
          certificatesv1.Usages :=
            [ certificatesv1.UsageDigitalSignature; certificatesv1.UsageKeyEncipherment;
              certificatesv1.UsageClientAuth ] |};
     certificatesv1.Status := {| certificatesv1.Conditions := [] |} |}.

Definition servingRequest : certificatesv1.CertificateSigningRequest :=
  {| certificatesv1.Name := "csr-serving";
     certificatesv1.CreationTimestamp := T0 + 24 * time.Hour;
     certificatesv1.Spec :=
       {| certificatesv1.Username := "system:node:ip-10-0-1-6";
          certificatesv1.Groups := [ "system:nodes"; "system:authenticated" ];
          certificatesv1.Usages :=
            [ certificatesv1.UsageDigitalSignature; certificatesv1.UsageKeyEncipherment;
              certificatesv1.UsageServerAuth ] |};
     certificatesv1.Status := {| certificatesv1.Conditions := [] |} |}.

(** The serving certificate the kubelet of [ip-10-0-1-6] presents. *)
Definition kubeletCert : x509.Certificate string :=
  {| x509.Raw := [Byte.x30; Byte.x82];
     x509.Subject :=
       {| pkix.CommonName := "system:node:ip-10-0-1-6"; pkix.Organization := ["system:nodes"] |};
     x509.DNSNames := ["ip-10-0-1-6"]; x509.EmailAddresses := [];
     x509.IPAddresses := [ip_10_0_1_6]; x509.URIs := [] |}.

(** The libraries of the scenarios: URLs are their own text, the pool
    trusts the issuer of [kubeletCert] only, and one kubelet answers. *)
Definition scenario : Externals :=
  {| URL := string;
     URL_String := fun u => u;
     IP_String := dotted_quad;
     CertPool := unit;
     Verify := fun cert _ =>
       match x509.Raw cert with
       | [Byte.x30; Byte.x82] => None
       | _ => Some (LibraryError "x509: certificate signed by unknown authority")
       end;
     DialWithDialer := fun _ address _ _ =>
       if String.eqb address "10.0.1.6:10250" then inl (kubeletCert, [])
       else inr (LibraryError "dial tcp: i/o timeout");
     IsNotFound := fun err =>
       match err with
       | StatusError reason _ => String.eqb reason "NotFound"
       | _ => false
       end;
     isNodeClientCert := isNodeClientCert_spec |}.

Definition clientCSR (node : string) : x509.CertificateRequest (@URL scenario) :=
  {| x509.csr_Subject :=
       {| pkix.CommonName := "system:node:" +:+ node; pkix.Organization := ["system:nodes"] |};
     x509.csr_DNSNames := []; x509.csr_EmailAddresses := [];
     x509.csr_IPAddresses := []; x509.csr_URIs := [] |}.

Definition servingCSR (ip : IP) : x509.CertificateRequest (@URL scenario) :=
  {| x509.csr_Subject :=
       {| pkix.CommonName := "system:node:ip-10-0-1-6"; pkix.Organization := ["system:nodes"] |};
     x509.csr_DNSNames := ["ip-10-0-1-6"]; x509.csr_EmailAddresses := [];
     x509.csr_IPAddresses := [ip]; x509.csr_URIs := [] |}.

Definition config_enabled : ClusterMachineApproverConfig :=
  {| NodeClientCert_ := {| Disabled := false |} |}.

Definition condition (type : string) : certificatesv1.CertificateSigningRequestCondition :=
  {| certificatesv1.Type_ := type |}.

Definition backlogCSR (created : time.Time)
  (conditions : list certificatesv1.CertificateSigningRequestCondition)
  : certificatesv1.CertificateSigningRequest :=
  {| certificatesv1.Name := "csr";
     certificatesv1.CreationTimestamp := created;
     certificatesv1.Spec :=
       {| certificatesv1.Username := "system:node:ip-10-0-1-6";
          certificatesv1.Groups := []; certificatesv1.Usages := [] |};
     certificatesv1.Status := {| certificatesv1.Conditions := conditions |} |}.

(** A backlog read at [T0]: a pending CSR, an approved one, a denied one,
    one created exactly an hour ago, one created exactly ten seconds
    ahead, and a stale one. *)
Definition backlog : list certificatesv1.CertificateSigningRequest :=
  [ backlogCSR (T0 - 5 * time.Minute) [];
    backlogCSR (T0 - 5 * time.Minute) [condition "Approved"];
    backlogCSR (T0 + 1 * time.Second) [condition "Denied"];
    backlogCSR (T0 - time.Hour) [];
    backlogCSR (T0 + 10 * time.Second) [];
    backlogCSR (T0 - 3 * time.Hour) [] ].

(** A request of a cluster administrator, and a node-serving request with
    DNS SANs of its own choice. *)
Definition adminRequest : certificatesv1.CertificateSigningRequest :=
  {| certificatesv1.Name := "csr-admin";
     certificatesv1.CreationTimestamp := T0;
     certificatesv1.Spec :=
       {| certificatesv1.Username := "system:admin";
          certificatesv1.Groups := [ "system:masters"; "system:authenticated" ];
          certificatesv1.Usages :=
            [ certificatesv1.UsageDigitalSignature; certificatesv1.UsageKeyEncipherment;
              certificatesv1.UsageClientAuth ] |};
     certificatesv1.Status := {| certificatesv1.Conditions := [] |} |}.

Definition adminCSR : x509.CertificateRequest (@URL scenario) :=
  {| x509.csr_Subject :=
       {| pkix.CommonName := "system:admin"; pkix.Organization := ["system:masters"] |};
     x509.csr_DNSNames := []; x509.csr_EmailAddresses := [];
     x509.csr_IPAddresses := []; x509.csr_URIs := [] |}.

Definition servingCSR_named (names : list string) : x509.CertificateRequest (@URL scenario) :=
  {| x509.csr_Subject :=
       {| pkix.CommonName := "system:node:ip-10-0-1-6"; pkix.Organization := ["system:nodes"] |};
     x509.csr_DNSNames := names; x509.csr_EmailAddresses := [];
     x509.csr_IPAddresses := [ip_10_0_1_6]; x509.csr_URIs := [] |}.

(** The bootstrapper's request with its groups listed the way the caller
    likes. *)
Definition bootstrapRequestWithGroups (groups : list string)
  : certificatesv1.CertificateSigningRequest :=
  {| certificatesv1.Name := "csr-bootstrap";
     certificatesv1.CreationTimestamp := T0 + 5 * time.Minute;
     certificatesv1.Spec :=
       {| certificatesv1.Username := nodeBootstrapperUsername;
          certificatesv1.Groups := groups;
          certificatesv1.Usages :=
            [ certificatesv1.UsageDigitalSignature; certificatesv1.UsageKeyEncipherment;
              certificatesv1.UsageClientAuth ] |};
     certificatesv1.Status := {| certificatesv1.Conditions := [] |} |}.

(** ** Strings and their order *)

Lemma HasPrefix_app (p rest : string) : strings_HasPrefix (p +:+ rest) p = true.
Proof.
  unfold strings_HasPrefix. induction p as [|a p IH]; simpl.
  - destruct rest; reflexivity.
  - destruct (ascii_dec a a); [exact IH | contradiction].
Qed.

Lemma HasPrefix_inv (s p : string) :
  strings_HasPrefix s p = true -> s = p +:+ string_from (String.length p) s.
Proof.
  unfold strings_HasPrefix. revert s. induction p as [|a p IH]; intros s Hp; simpl in *.
  - reflexivity.
  - destruct s as [|b s]; simpl in Hp; [discriminate|].
    destruct (ascii_dec a b) as [->|]; [|discriminate].
    change (String b s = String b (p +:+ string_from (String.length p) s)).
    f_equal. apply IH, Hp.
Qed.

Lemma HasPrefix_app_eq (s p : string) :
  s = p +:+ string_from (String.length p) s -> strings_HasPrefix s p = true.
Proof. intros ->. apply HasPrefix_app. Qed.

Lemma string_from_app (p rest : string) : string_from (String.length p) (p +:+ rest) = rest.
Proof. induction p as [|a p IH]; simpl; [reflexivity | exact IH]. Qed.

Lemma TrimPrefix_app (p rest : string) : strings_TrimPrefix (p +:+ rest) p = rest.
Proof. unfold strings_TrimPrefix. rewrite HasPrefix_app. apply string_from_app. Qed.

Lemma len_string_0 (s : string) : (len_string s =? 0) = true <-> s = "".
Proof.
  unfold len_string. destruct s; simpl; split; intros Hs; try reflexivity;
    try discriminate.
Qed.

Lemma len_string_0_false (s : string) : (len_string s =? 0) = false <-> s <> "".
Proof.
  rewrite <- len_string_0. destruct (len_string s =? 0); split; congruence.
Qed.

Lemma len_0 {A} (l : list A) : (len l =? 0) = true <-> l = [].
Proof.
  unfold len. destruct l; simpl; split; intros Hl; try reflexivity; try discriminate.
Qed.

Lemma ascii_compare_N (a b : ascii) :
  Ascii.compare a b = N.compare (N_of_ascii a) (N_of_ascii b).
Proof. reflexivity. Qed.

Lemma string_compare_refl (a : string) : String.compare a a = Eq.
Proof.
  induction a as [|c a IH]; simpl; [reflexivity|].
  rewrite ascii_compare_N, N.compare_refl. exact IH.
Qed.

Lemma string_compare_Lt_trans (a b c : string) :
  String.compare a b = Lt -> String.compare b c = Lt -> String.compare a c = Lt.
Proof.
  revert b c. induction a as [|x a IH]; intros [|y b] [|z c]; simpl; try congruence.
  rewrite !ascii_compare_N.
  destruct (N.compare_spec (N_of_ascii x) (N_of_ascii y)) as [Exy|Lxy|Gxy];
    destruct (N.compare_spec (N_of_ascii y) (N_of_ascii z)) as [Eyz|Lyz|Gyz];
    try discriminate; intros Hab Hbc.
  - rewrite Exy, Eyz, N.compare_refl. eapply IH; eassumption.
  - rewrite Exy. apply N.compare_lt_iff in Lyz. rewrite Lyz. reflexivity.
  - rewrite <- Eyz. apply N.compare_lt_iff in Lxy. rewrite Lxy. reflexivity.
  - assert (Hxz : (N_of_ascii x < N_of_ascii z)%N) by lia.
    apply N.compare_lt_iff in Hxz. rewrite Hxz. reflexivity.
Qed.

#[global] Instance string_le_total : Total string_le.
Proof. intros a b. apply String.leb_total. Qed.

#[global] Instance string_le_antisym : AntiSymm (=) string_le.
Proof. intros a b. apply String.leb_antisym. Qed.

#[global] Instance string_le_trans : Transitive string_le.
Proof.
  intros a b c. unfold string_le, String.leb.
  destruct (String.compare a b) eqn:Hab; [| |discriminate];
    destruct (String.compare b c) eqn:Hbc; try discriminate; intros _ _.
  - apply String.compare_eq_iff in Hab, Hbc. subst.
    rewrite string_compare_refl. reflexivity.
  - apply String.compare_eq_iff in Hab. subst. rewrite Hbc. reflexivity.
  - apply String.compare_eq_iff in Hbc. subst. rewrite Hab. reflexivity.
  - rewrite (string_compare_Lt_trans a b c Hab Hbc). reflexivity.
Qed.

(** Sorted copies are equal exactly when the slices hold the same
    strings, each as many times. *)
Lemma sort_Strings_eq_iff (a b : list string) :
  sort_Strings a = sort_Strings b <-> Permutation a b.
Proof.
  unfold sort_Strings. split; intros Hab.
  - rewrite <- (merge_sort_Permutation string_le a), Hab.
    apply merge_sort_Permutation.
  - apply (Sorted_unique string_le); try apply Sorted_merge_sort; try apply _.
    rewrite !merge_sort_Permutation. exact Hab.
Qed.

Lemma equalStrings_iff (a b : list string) :
  equalStrings a b = true <-> Permutation a b.
Proof.
  unfold equalStrings. rewrite bool_decide_eq_true. apply sort_Strings_eq_iff.
Qed.

(** ** The SAN comparison utilities *)

Section Properties.
Context `{Externals}.

Local Abbreviation CSR := certificatesv1.CertificateSigningRequest.
Local Abbreviation CertificateRequest := (x509.CertificateRequest URL).
Local Abbreviation Certificate := (x509.Certificate URL).

Lemma equal_by_strings_iff {A} (f : A -> string) (a b : list A) :
  (if negb (len a =? len b) then false
   else bool_decide (sort_Strings (map f a) = sort_Strings (map f b))) = true
  <-> Permutation (map f a) (map f b).
Proof.
  unfold len. destruct (Z.eqb_spec (Z.of_nat (length a)) (Z.of_nat (length b))) as [Hl|Hl];
    simpl.
  - rewrite bool_decide_eq_true. apply sort_Strings_eq_iff.
  - split; [discriminate|]. intros Hp. apply Permutation_length in Hp.
    rewrite !length_map in Hp. lia.
Qed.

Lemma equalIPAddresses_iff (a b : list IP) :
  equalIPAddresses a b = true <-> Permutation (map IP_String a) (map IP_String b).
Proof. apply equal_by_strings_iff. Qed.

Lemma equalURLs_iff (a b : list URL) :
  equalURLs a b = true <-> Permutation (map URL_String a) (map URL_String b).
Proof. apply equal_by_strings_iff. Qed.

(** A comparison that decides "same canonical strings up to order" has
    the four properties. *)
Lemma order_insensitive_equality {A B} (eq : list A -> list A -> bool) (g : A -> B) :
  (forall a b, eq a b = true <-> Permutation (map g a) (map g b)) ->
  symmetric_eq eq /\ reflexive_eq eq /\ permutation_invariant eq /\ length_sensitive eq.
Proof.
  intros Heq. repeat split.
  - intros a b. apply Bool.eq_iff_eq_true. rewrite !Heq.
    split; apply Permutation_sym.
  - intros a. apply Heq. reflexivity.
  - intros a a' b b' Ha Hb. apply Bool.eq_iff_eq_true. rewrite !Heq.
    apply (Permutation_map g) in Ha, Hb.
    split; intros Hab.
    + rewrite <- Ha, <- Hb. exact Hab.
    + rewrite Ha, Hb. exact Hab.
  - intros a b Hl. apply Bool.not_true_iff_false. rewrite Heq. intros Hp.
    apply Permutation_length in Hp. rewrite !length_map in Hp. contradiction.
Qed.

(** C9: [equalStrings], [equalIPAddresses] and [equalURLs] are each
    symmetric, reflexive and unchanged when the elements of either
    argument are permuted, and none of them reports two inputs of unequal
    length equal. *)
Theorem san_comparisons_order_insensitive :
  (symmetric_eq equalStrings /\ reflexive_eq equalStrings /\
   permutation_invariant equalStrings /\ length_sensitive equalStrings) /\
  (symmetric_eq equalIPAddresses /\ reflexive_eq equalIPAddresses /\
   permutation_invariant equalIPAddresses /\ length_sensitive equalIPAddresses) /\
  (symmetric_eq equalURLs /\ reflexive_eq equalURLs /\
   permutation_invariant equalURLs /\ length_sensitive equalURLs).
Proof.
  split; [|split].
  - apply (order_insensitive_equality equalStrings (fun s => s)).
    intros a b. rewrite !map_id. apply equalStrings_iff.
  - apply (order_insensitive_equality equalIPAddresses IP_String), equalIPAddresses_iff.
  - apply (order_insensitive_equality equalURLs URL_String), equalURLs_iff.
Qed.

(** ** The serving-renewal authorizer *)

(** C3: [authorizeServingRenewal] returns [nil] exactly when the current
    certificate verifies against the roots of the verify options, its
    common name is [system:node:<nodeName>], the request's common name is
    the certificate's, and the DNS, email, IP and URI SANs of the two are
    the same canonical strings up to order; a [nil] return therefore
    means that each of the four SAN lists holds the same strings on both
    sides. *)
Theorem authorizeServingRenewal_nil_iff (nodeName : string)
  (csr : option CertificateRequest) (currentCert : option Certificate)
  (options : x509.VerifyOptions CertPool) :
  (authorizeServingRenewal nodeName csr currentCert options = None <->
   exists request cert roots,
     csr = Some request /\ currentCert = Some cert /\ x509.Roots options = Some roots /\
     Verify cert options = None /\
     pkix.CommonName (x509.Subject cert) = "system:node:" +:+ nodeName /\
     pkix.CommonName (x509.csr_Subject request) = pkix.CommonName (x509.Subject cert) /\
     sameSANs cert request) /\
  (forall request cert,
     authorizeServingRenewal nodeName (Some request) (Some cert) options = None ->
     (forall s, In s (x509.csr_DNSNames request) <-> In s (x509.DNSNames cert)) /\
     (forall s, In s (x509.csr_EmailAddresses request) <-> In s (x509.EmailAddresses cert)) /\
     (forall s, In s (map IP_String (x509.csr_IPAddresses request))
                <-> In s (map IP_String (x509.IPAddresses cert))) /\
     (forall s, In s (map URL_String (x509.csr_URIs request))
                <-> In s (map URL_String (x509.URIs cert)))).
Proof.
  assert (Hiff : forall csr currentCert,
    authorizeServingRenewal nodeName csr currentCert options = None <->
    exists request cert roots,
     csr = Some request /\ currentCert = Some cert /\ x509.Roots options = Some roots /\
     Verify cert options = None /\
     pkix.CommonName (x509.Subject cert) = "system:node:" +:+ nodeName /\
     pkix.CommonName (x509.csr_Subject request) = pkix.CommonName (x509.Subject cert) /\
     sameSANs cert request).
  { clear csr currentCert. intros csr currentCert. unfold authorizeServingRenewal, sameSANs.
    split.
    - destruct csr as [request|]; [|discriminate].
      destruct currentCert as [cert|]; [|discriminate].
      destruct (x509.Roots options) as [roots|] eqn:Hroots; [|discriminate].
      destruct (Verify cert options) eqn:Hverify; [discriminate|].
      destruct (String.eqb_spec (pkix.CommonName (x509.Subject cert))
                  (nodeUser +:+ ":" +:+ nodeName)) as [Hcn|]; [|discriminate].
      destruct (String.eqb_spec (pkix.CommonName (x509.Subject cert))
                  (pkix.CommonName (x509.csr_Subject request))) as [Hcn'|]; [|discriminate].
      simpl.
      destruct (equalStrings (x509.DNSNames cert) (x509.csr_DNSNames request)) eqn:Hdns;
        [|discriminate].
      destruct (equalStrings (x509.EmailAddresses cert) (x509.csr_EmailAddresses request))
        eqn:Hemail; [|discriminate].
      destruct (equalIPAddresses (x509.IPAddresses cert) (x509.csr_IPAddresses request))
        eqn:Hip; [|discriminate].
      destruct (equalURLs (x509.URIs cert) (x509.csr_URIs request)) eqn:Huri;
        [|discriminate].
      intros _. exists request, cert, roots.
      apply equalStrings_iff in Hdns, Hemail. apply equalIPAddresses_iff in Hip.
      apply equalURLs_iff in Huri. rewrite Hcn at 1. auto 10.
    - intros (request & cert & roots & -> & -> & Hroots & Hverify & Hcn & Hcn' & Hsans).
      destruct Hsans as (Hdns & Hemail & Hip & Huri).
      rewrite Hroots, Hverify.
      apply equalStrings_iff in Hdns, Hemail. apply equalIPAddresses_iff in Hip.
      apply equalURLs_iff in Huri.
      rewrite Hdns, Hemail, Hip, Huri. simpl.
      rewrite <- Hcn'. rewrite !String.eqb_refl. simpl.
      replace (String.eqb (pkix.CommonName (x509.csr_Subject request))
                 (nodeUser +:+ ":" +:+ nodeName)) with true; [reflexivity|].
      symmetry. apply String.eqb_eq. rewrite Hcn'. exact Hcn. }
  split; [apply Hiff|].
  intros request cert Hnil. apply Hiff in Hnil.
  destruct Hnil as (request' & cert' & roots & Hr & Hc & _ & _ & _ & _ & Hsans).
  injection Hr as <-. injection Hc as <-.
  destruct Hsans as (Hdns & Hemail & Hip & Huri).
  repeat split; intros Hin;
    first [ eapply Permutation_in; [|exact Hin]; eassumption
          | eapply Permutation_in; [|exact Hin]; apply Permutation_sym; eassumption ].
Qed.

(** ** The backlog count *)

Lemma inTimeSpan_iff (start end_ check : time.Time) :
  inTimeSpan start end_ check = true <-> start < check /\ check < end_.
Proof.
  unfold inTimeSpan, time.After, time.Before.
  rewrite andb_true_iff, !Z.ltb_lt. reflexivity.
Qed.

Lemma isApproved_conditions_false conditions :
  isApproved_conditions conditions = false <->
  Forall (fun cond => certificatesv1.Type_ cond <> "Approved") conditions.
Proof.
  induction conditions as [|cond rest IH]; simpl.
  - split; [constructor | reflexivity].
  - rewrite Forall_cons_iff.
    destruct (String.eqb_spec (certificatesv1.Type_ cond) certificatesv1.CertificateApproved)
      as [Heq|Hne].
    + split; [discriminate | intros [Hne _]; contradiction].
    + rewrite IH. tauto.
Qed.

Lemma int_wrap_small (z : Z) : - 2 ^ 63 <= z <= int_max -> int_wrap z = z.
Proof.
  unfold int_wrap, int_max. intros Hz. rewrite Z.mod_small; lia.
Qed.

Lemma recentlyPending_step_spec (now : time.Time) (pending_ : Z) (csr : CSR) :
  0 <= pending_ < int_max ->
  recentlyPending_step (time.Add now (- maxPendingDelta)) (time.Add now maxMachineClockSkew)
    pending_ csr
  = if decide (recentlyPending now csr) then pending_ + 1 else pending_.
Proof.
  intros Hp. unfold recentlyPending_step, isApproved.
  destruct (inTimeSpan _ _ (certificatesv1.CreationTimestamp csr)) eqn:Hspan; simpl.
  - apply inTimeSpan_iff in Hspan.
    destruct (isApproved_conditions _) eqn:Happ; simpl.
    + destruct (decide (recentlyPending now csr)) as [[_ Hpend]|]; [|reflexivity].
      apply isApproved_conditions_false in Hpend. congruence.
    + apply isApproved_conditions_false in Happ.
      rewrite int_wrap_small by (unfold int_max in *; lia).
      destruct (decide (recentlyPending now csr)) as [|Hn]; [reflexivity|].
      exfalso. apply Hn. split; [exact Hspan | exact Happ].
  - destruct (decide (recentlyPending now csr)) as [[Hrec _]|]; [|reflexivity].
    assert (Hin : inTimeSpan (time.Add now (- maxPendingDelta))
                    (time.Add now maxMachineClockSkew)
                    (certificatesv1.CreationTimestamp csr) = true)
      by (apply inTimeSpan_iff; exact Hrec).
    congruence.
Qed.

Lemma recentlyPending_loop (now : time.Time) (csrs : list CSR) (pending_ : Z) :
  0 <= pending_ -> pending_ + len csrs <= int_max ->
  fold_left (recentlyPending_step (time.Add now (- maxPendingDelta))
               (time.Add now maxMachineClockSkew)) csrs pending_
  = pending_ + len (filter (recentlyPending now) csrs).
Proof.
  revert pending_. unfold len.
  induction csrs as [|csr rest IH]; intros pending_ Hlo Hhi; simpl.
  - lia.
  - simpl in Hhi. rewrite recentlyPending_step_spec by lia.
    rewrite filter_cons. destruct (decide (recentlyPending now csr)); simpl.
    + rewrite IH by lia. lia.
    + apply IH; lia.
Qed.

(** C7: [recentlyPendingCSRs] counts the CSRs created strictly between
    one hour before and ten seconds after the clock's reading that carry
    no condition of type Approved. *)
Theorem recentlyPendingCSRs_counts (now : time.Time) (csrs : list CSR) :
  slice csrs ->
  recentlyPendingCSRs now csrs = len (filter (recentlyPending now) csrs).
Proof.
  intros Hslice. unfold recentlyPendingCSRs.
  rewrite recentlyPending_loop; [reflexivity | lia | exact Hslice].
Qed.

(** ** The shape of the decision *)

(** C10: with a nil CSR object or a nil parsed request, [authorizeCSR]
    returns [(false, nil)] at once. *)
Theorem authorizeCSR_nil_request (c : Client) (config : ClusterMachineApproverConfig)
  (machines : list machinev1.Machine) (req : option CSR)
  (csr : option CertificateRequest) (ca : option CertPool) :
  req = None \/ csr = None ->
  authorizeCSR c config machines req csr ca = (false, None).
Proof.
  intros [-> | ->]; [reflexivity|]. destruct req; reflexivity.
Qed.

Lemma authorizeNodeClientCSR_machine_shape machines req nodeName :
  let r := authorizeNodeClientCSR_machine machines req nodeName in
  fst r = false \/ snd r = None.
Proof.
  unfold authorizeNodeClientCSR_machine.
  destruct (findMatchingMachineFromInternalDNS nodeName machines) as [m [|]]; simpl;
    [|left; reflexivity].
  destruct (machinev1.NodeRef _); [left; reflexivity|].
  destruct (inTimeSpan _ _ _); simpl; [right | left]; reflexivity.
Qed.

Lemma authorizeNodeClientCSR_shape c machines req csr :
  let r := authorizeNodeClientCSR c machines req csr in
  fst r = false \/ snd r = None.
Proof.
  unfold authorizeNodeClientCSR.
  destruct (isReqFromNodeBootstrapper req); simpl; [|left; reflexivity].
  destruct (len_string _ =? 0); [left; reflexivity|].
  destruct (Get c _) as [node|err]; [left; reflexivity|].
  destruct (IsNotFound err); simpl; [|left; reflexivity].
  apply authorizeNodeClientCSR_machine_shape.
Qed.

Lemma authorizeCSR_machineAPI_shape machines csr nodeAsking :
  let r := authorizeCSR_machineAPI machines csr nodeAsking in
  fst r = false \/ snd r = None.
Proof.
  unfold authorizeCSR_machineAPI.
  destruct (findMatchingMachineFromNodeRef nodeAsking machines) as [m [|]]; simpl;
    [|left; reflexivity].
  destruct (checkDNSNames _ _); [left; reflexivity|].
  destruct (checkIPAddresses _ _); [left | right]; reflexivity.
Qed.

(** C8: whatever its inputs, [authorizeCSR] returns a non-nil error only
    with [approved = false]: the pair [(true, err)] with [err] non-nil is
    never returned. *)
Theorem authorizeCSR_never_approves_with_error (c : Client)
  (config : ClusterMachineApproverConfig) (machines : list machinev1.Machine)
  (req : option CSR) (csr : option CertificateRequest) (ca : option CertPool) :
  let r := authorizeCSR c config machines req csr ca in
  (fst r = false \/ snd r = None) /\
  (forall err, r <> (true, Some err)) /\
  (fst r = true -> r = (true, None)).
Proof.
  assert (Hshape : let r := authorizeCSR c config machines req csr ca in
                   fst r = false \/ snd r = None).
  { unfold authorizeCSR.
    destruct req as [req|]; [|left; reflexivity].
    destruct csr as [csr|]; [|left; reflexivity].
    destruct (isNodeClientCert req csr).
    - destruct (Disabled _); [left; reflexivity|].
      apply authorizeNodeClientCSR_shape.
    - destruct (validateCSRContents req csr) as [nodeAsking err].
      destruct (String.eqb nodeAsking "" || bool_decide (is_Some err));
        [left; reflexivity|].
      destruct (authorizeCSR_renewal c nodeAsking csr ca); [right; reflexivity|].
      apply authorizeCSR_machineAPI_shape. }
  simpl in *. destruct (authorizeCSR c config machines req csr ca) as [approved err].
  simpl in *. repeat split.
  - exact Hshape.
  - intros err' Heq. injection Heq as -> ->. destruct Hshape; discriminate.
  - intros ->. destruct Hshape as [ | -> ]; [discriminate | reflexivity].
Qed.

(** ** The classifiers and the Machine index *)

Lemma isReqFromNodeBootstrapper_iff (req : CSR) :
  isReqFromNodeBootstrapper req = true <-> fromNodeBootstrapper req.
Proof.
  unfold isReqFromNodeBootstrapper, fromNodeBootstrapper, sets.Equal,
    nodeBootstrapperGroups, sets.NewString.
  rewrite andb_true_iff, String.eqb_eq, bool_decide_eq_true.
  apply and_iff_compat_l.
  rewrite set_eq. apply forall_proper. intros g.
  rewrite !elem_of_list_to_set, !list_elem_of_In. simpl.
  split; intros Hg; rewrite Hg || rewrite <- Hg; intuition congruence.
Qed.

Lemma isInternalDNSOf_iff (name : string) (m : machinev1.Machine) :
  existsb (isInternalDNSOf name) (machinev1.Addresses (machinev1.Status m)) = true
  <-> hasInternalDNS name m.
Proof.
  rewrite existsb_exists. unfold hasInternalDNS, isInternalDNSOf.
  split; intros (addr & Hin & Haddr); exists addr; (split; [exact Hin|]).
  - apply andb_true_iff in Haddr. rewrite !String.eqb_eq in Haddr. exact Haddr.
  - apply andb_true_iff. rewrite !String.eqb_eq. exact Haddr.
Qed.

Lemma findMatchingMachineFromInternalDNS_first name machines m :
  firstWithInternalDNS name machines m ->
  findMatchingMachineFromInternalDNS name machines = (m, true).
Proof.
  intros (before & after & -> & Hbefore & Hm).
  induction Hbefore as [|m' before Hm' _ IH]; simpl.
  - apply isInternalDNSOf_iff in Hm. rewrite Hm. reflexivity.
  - destruct (existsb _ _) eqn:Hex; [|exact IH].
    apply isInternalDNSOf_iff in Hex. contradiction.
Qed.

Lemma findMatchingMachineFromInternalDNS_none name machines :
  Forall (fun m => ~ hasInternalDNS name m) machines ->
  findMatchingMachineFromInternalDNS name machines = (machinev1.zero, false).
Proof.
  induction 1 as [|m machines Hm _ IH]; simpl; [reflexivity|].
  destruct (existsb _ _) eqn:Hex; [|exact IH].
  apply isInternalDNSOf_iff in Hex. contradiction.
Qed.

Lemma findMatchingMachineFromNodeRef_first name machines m :
  firstWithNodeRef name machines m ->
  findMatchingMachineFromNodeRef name machines = (m, true).
Proof.
  intros (before & after & -> & Hbefore & (ref & Href & Hname)).
  induction Hbefore as [|m' before Hm' _ IH]; simpl.
  - rewrite Href. apply String.eqb_eq in Hname. rewrite Hname. reflexivity.
  - destruct (machinev1.NodeRef (machinev1.Status m')) as [ref'|] eqn:Href'; [|exact IH].
    destruct (String.eqb_spec (corev1.Name ref') name) as [Heq|]; [|exact IH].
    exfalso. apply Hm'. exists ref'. split; [exact Href' | exact Heq].
Qed.

Lemma findMatchingMachineFromNodeRef_none name machines :
  Forall (fun m => ~ hasNodeRef name m) machines ->
  findMatchingMachineFromNodeRef name machines = (machinev1.zero, false).
Proof.
  induction 1 as [|m machines Hm _ IH]; simpl; [reflexivity|].
  destruct (machinev1.NodeRef _) as [ref|] eqn:Href; [|exact IH].
  destruct (String.eqb_spec (corev1.Name ref) name) as [Heq|]; [|exact IH].
  exfalso. apply Hm. exists ref. split; [exact Href | exact Heq].
Qed.

Lemma two_members_length {A} (x y : A) (l : list A) :
  x <> y -> In x l -> In y l -> (2 <= length l)%nat.
Proof.
  intros Hne Hx Hy. destruct l as [|a [|b l]]; simpl in *.
  - contradiction.
  - destruct Hx as [<-|[]], Hy as [<-|[]]. contradiction.
  - lia.
Qed.

Lemma sets_Has_NewString (items : list string) (item : string) :
  sets.Has (sets.NewString items) item = true <-> In item items.
Proof.
  unfold sets.Has, sets.NewString.
  rewrite bool_decide_eq_true, elem_of_list_to_set, list_elem_of_In. reflexivity.
Qed.

(** [validateCSRContents] returns an asking name exactly for the
    node-serving requests of the specification. *)
Lemma validateCSRContents_servingShape (req : CSR) (csr : CertificateRequest)
  (askingName : string) :
  validateCSRContents req csr = (askingName, None) /\ askingName <> ""
  <-> servingShape req csr askingName.
Proof.
  unfold validateCSRContents, servingShape.
  change nodeUserPrefix with "system:node:".
  change nodeGroup with "system:nodes".
  change certificatesv1.UsageDigitalSignature with "digital signature".
  change certificatesv1.UsageKeyEncipherment with "key encipherment".
  change certificatesv1.UsageServerAuth with "server auth".
  cbv zeta. simpl sets.HasAll.
  set (spec := certificatesv1.Spec req).
  split.
  - intros [Hv Hne].
    destruct (strings_HasPrefix (certificatesv1.Username spec) "system:node:") eqn:Hpre;
      simpl in Hv; [|congruence].
    destruct (len_string _ =? 0) eqn:Hlen; [congruence|].
    destruct (len (certificatesv1.Groups spec) <? 2); [discriminate|].
    destruct (sets.Has _ "system:nodes") eqn:Hg1; simpl in Hv; [|discriminate].
    destruct (sets.Has _ "system:authenticated") eqn:Hg2; simpl in Hv; [|discriminate].
    destruct (Z.eqb_spec (len (certificatesv1.Usages spec)) 3) as [Hu|];
      simpl in Hv; [|discriminate].
    destruct (sets.Has _ "digital signature") eqn:Hu1; simpl in Hv; [|discriminate].
    destruct (sets.Has _ "key encipherment") eqn:Hu2; simpl in Hv; [|discriminate].
    destruct (sets.Has _ "server auth") eqn:Hu3; simpl in Hv; [|discriminate].
    destruct (String.eqb_spec (pkix.CommonName (x509.csr_Subject csr))
                (certificatesv1.Username spec)) as [Hcn|]; simpl in Hv; [|discriminate].
    destruct (existsb _ _) eqn:Horg; simpl in Hv; [|discriminate].
    injection Hv as Hname.
    apply sets_Has_NewString in Hg1, Hg2, Hu1, Hu2, Hu3.
    apply existsb_exists in Horg. destruct Horg as (org & Horg & Heq).
    apply String.eqb_eq in Heq. subst org.
    apply HasPrefix_inv in Hpre. unfold strings_TrimPrefix in Hname.
    rewrite HasPrefix_app_eq in Hname by exact Hpre.
    unfold len in Hu.
    repeat split; try assumption; try lia.
    rewrite <- Hname. exact Hpre.
  - intros (Huser & Hne & Hg1 & Hg2 & Hlen & Hu1 & Hu2 & Hu3 & Hcn & Horg).
    split; [|exact Hne].
    assert (Hpre : strings_HasPrefix (certificatesv1.Username spec) "system:node:" = true)
      by (rewrite Huser; apply HasPrefix_app).
    assert (Htrim : strings_TrimPrefix (certificatesv1.Username spec) "system:node:"
                    = askingName)
      by (rewrite Huser; apply TrimPrefix_app).
    rewrite Hpre, Htrim. simpl.
    apply len_string_0_false in Hne. rewrite Hne.
    assert (Hlg : (2 <= length (certificatesv1.Groups spec))%nat).
    { eapply two_members_length; [|exact Hg1|exact Hg2]. discriminate. }
    destruct (Z.ltb_spec (len (certificatesv1.Groups spec)) 2) as [Hlt|_];
      [unfold len in Hlt; lia|].
    apply sets_Has_NewString in Hg1, Hg2, Hu1, Hu2, Hu3.
    rewrite Hg1, Hg2, Hu1, Hu2, Hu3. simpl.
    unfold len. rewrite Hlen. simpl.
    apply String.eqb_eq in Hcn. rewrite Hcn. simpl.
    replace (existsb _ _) with true; [reflexivity|].
    symmetry. apply existsb_exists. exists "system:nodes"%string.
    split; [exact Horg | reflexivity].
Qed.

(** ** The bootstrap authorizer *)

Lemma authorizeNodeClientCSR_reaches_lookup c machines req csr :
  fromNodeBootstrapper req -> bootstrapNodeName csr <> "" ->
  authorizeNodeClientCSR c machines req csr =
  match Get c (bootstrapNodeName csr) with
  | inr err =>
      if negb (IsNotFound err)
      then (false, Some (Errorf "failed get existing nodes %s" [Str (bootstrapNodeName csr)]))
      else authorizeNodeClientCSR_machine machines req (bootstrapNodeName csr)
  | inl _ => (false, None)
  end.
Proof.
  intros Hboot Hname. unfold authorizeNodeClientCSR.
  apply isReqFromNodeBootstrapper_iff in Hboot. rewrite Hboot. simpl.
  apply len_string_0_false in Hname. unfold bootstrapNodeName in *.
  change nodeUserPrefix with "system:node:". rewrite Hname. reflexivity.
Qed.

(** C6: at the Node lookup of the bootstrap flow, "not found" lets the
    authorization go on to the Machine checks, an existing Node gives
    [(false, nil)], and any other API error gives [(false, err)] with a
    non-nil error. *)
Theorem authorizeNodeClientCSR_node_lookup (c : Client)
  (machines : list machinev1.Machine) (req : CSR) (csr : CertificateRequest) :
  fromNodeBootstrapper req ->
  bootstrapNodeName csr <> "" ->
  (nodeNotFound c (bootstrapNodeName csr) ->
   authorizeNodeClientCSR c machines req csr
   = authorizeNodeClientCSR_machine machines req (bootstrapNodeName csr)) /\
  (nodeExists c (bootstrapNodeName csr) ->
   authorizeNodeClientCSR c machines req csr = (false, None)) /\
  (nodeLookupFails c (bootstrapNodeName csr) ->
   exists err, authorizeNodeClientCSR c machines req csr = (false, Some err)).
Proof.
  intros Hboot Hname.
  rewrite (authorizeNodeClientCSR_reaches_lookup c machines req csr Hboot Hname).
  repeat split.
  - intros (err & -> & ->). reflexivity.
  - intros (node & ->). reflexivity.
  - intros (err & -> & ->). eexists. reflexivity.
Qed.

(** C1, amended: for every bootstrap authorization call in which the
    requester is the node bootstrapper, the common name yields a
    non-empty node name, no Node of that name exists, the first Machine
    of the snapshot with an InternalDNS address equal to that name has no
    NodeRef, and the CSR's creation timestamp lies strictly between that
    Machine's creation minus 10s and plus 2h, [authorizeNodeClientCSR]
    returns [(true, nil)]. *)
Theorem authorizeNodeClientCSR_approves (c : Client)
  (machines : list machinev1.Machine) (req : CSR) (csr : CertificateRequest)
  (m : machinev1.Machine) :
  fromNodeBootstrapper req ->
  bootstrapNodeName csr <> "" ->
  nodeNotFound c (bootstrapNodeName csr) ->
  firstWithInternalDNS (bootstrapNodeName csr) machines m ->
  machinev1.NodeRef (machinev1.Status m) = None ->
  machinev1.CreationTimestamp m - 10 * 1000000000 < certificatesv1.CreationTimestamp req ->
  certificatesv1.CreationTimestamp req < machinev1.CreationTimestamp m + 2 * 3600 * 1000000000 ->
  authorizeNodeClientCSR c machines req csr = (true, None).
Proof.
  intros Hboot Hname (err & Hget & Hnf) Hfirst Href Hlo Hhi.
  rewrite (authorizeNodeClientCSR_reaches_lookup c machines req csr Hboot Hname).
  rewrite Hget, Hnf. simpl. unfold authorizeNodeClientCSR_machine.
  rewrite (findMatchingMachineFromInternalDNS_first _ _ _ Hfirst). simpl.
  rewrite Href.
  replace (inTimeSpan _ _ _) with true; [reflexivity|].
  symmetry. apply inTimeSpan_iff. split; [exact Hlo | exact Hhi].
Qed.

(** C4, amended: for every bootstrap-shape CSR (bootstrapper identity,
    non-empty node name, the Node does not exist) for which no Machine of
    the snapshot has an InternalDNS address equal to the node name,
    [authorizeNodeClientCSR] returns [(false, err)] with a non-nil error:
    a requeue. *)
Theorem authorizeNodeClientCSR_no_machine (c : Client)
  (machines : list machinev1.Machine) (req : CSR) (csr : CertificateRequest) :
  fromNodeBootstrapper req ->
  bootstrapNodeName csr <> "" ->
  nodeNotFound c (bootstrapNodeName csr) ->
  Forall (fun m => ~ hasInternalDNS (bootstrapNodeName csr) m) machines ->
  exists err, authorizeNodeClientCSR c machines req csr = (false, Some err).
Proof.
  intros Hboot Hname (err & Hget & Hnf) Hnone.
  rewrite (authorizeNodeClientCSR_reaches_lookup c machines req csr Hboot Hname).
  rewrite Hget, Hnf. simpl. unfold authorizeNodeClientCSR_machine.
  rewrite (findMatchingMachineFromInternalDNS_none _ _ Hnone). simpl.
  eexists. reflexivity.
Qed.

(** ** The serving authorizer *)

Lemma authorizeCSR_renewal_iff c askingName csr ca :
  authorizeCSR_renewal c askingName csr ca = true <-> renewalApproves c askingName csr ca.
Proof.
  unfold authorizeCSR_renewal, renewalApproves. split.
  - destruct ca as [pool|]; [|discriminate].
    destruct (getServingCert c askingName (Some pool)) as [[cert|] [err|]];
      try discriminate.
    destruct (authorizeServingRenewal _ _ _ _) eqn:Hrenew; [discriminate|].
    intros _. exists pool, cert. auto.
  - intros (pool & cert & -> & -> & ->). reflexivity.
Qed.

Lemma authorizeCSR_serving c config machines req csr ca askingName :
  isNodeClientCert req csr = false ->
  servingShape req csr askingName ->
  authorizeCSR c config machines (Some req) (Some csr) ca =
  if authorizeCSR_renewal c askingName csr ca then (true, None)
  else authorizeCSR_machineAPI machines csr askingName.
Proof.
  intros Hclient Hshape. apply validateCSRContents_servingShape in Hshape.
  destruct Hshape as [Hv Hne]. unfold authorizeCSR. rewrite Hclient, Hv.
  apply String.eqb_neq in Hne. rewrite Hne. reflexivity.
Qed.

(** C5, amended: for every serving-shape CSR whose asking name matches no
    Machine of the snapshot by [status.nodeRef.name], [authorizeCSR]
    returns [(false, err)] with a non-nil error unless a CA pool is
    supplied and the kubelet probe and the renewal check succeed, in which
    case it returns [(true, nil)]. *)
Theorem authorizeCSR_serving_no_machine (c : Client)
  (config : ClusterMachineApproverConfig) (machines : list machinev1.Machine)
  (req : CSR) (csr : CertificateRequest) (ca : option CertPool) (askingName : string) :
  isNodeClientCert req csr = false ->
  servingShape req csr askingName ->
  Forall (fun m => ~ hasNodeRef askingName m) machines ->
  (~ renewalApproves c askingName csr ca ->
   exists err, authorizeCSR c config machines (Some req) (Some csr) ca = (false, Some err)) /\
  (renewalApproves c askingName csr ca ->
   authorizeCSR c config machines (Some req) (Some csr) ca = (true, None)).
Proof.
  intros Hclient Hshape Hnone.
  rewrite (authorizeCSR_serving c config machines req csr ca askingName Hclient Hshape).
  rewrite <- authorizeCSR_renewal_iff. split.
  - intros Hno. apply not_true_is_false in Hno. rewrite Hno.
    unfold authorizeCSR_machineAPI.
    rewrite (findMatchingMachineFromNodeRef_none _ _ Hnone). simpl.
    eexists. reflexivity.
  - intros ->. reflexivity.
Qed.

Lemma dnsSAN_step_found (san : string) (st : list string * bool) (addr : corev1.NodeAddress) :
  snd (dnsSAN_step san st addr) = true <->
  snd st = true \/
  ((corev1.Type_ addr = "InternalDNS" \/ corev1.Type_ addr = "ExternalDNS"
    \/ corev1.Type_ addr = "Hostname") /\ corev1.Address addr = san).
Proof.
  unfold dnsSAN_step. destruct st as [attempted found].
  change corev1.NodeInternalDNS with "InternalDNS".
  change corev1.NodeExternalDNS with "ExternalDNS".
  change corev1.NodeHostName with "Hostname".
  destruct (String.eqb_spec (corev1.Type_ addr) "InternalDNS");
    destruct (String.eqb_spec (corev1.Type_ addr) "ExternalDNS");
    destruct (String.eqb_spec (corev1.Type_ addr) "Hostname"); simpl;
    try destruct (String.eqb_spec san (corev1.Address addr)); simpl;
    intuition congruence.
Qed.

Lemma dnsSAN_loop (san : string) (m : machinev1.Machine) (st : list string * bool) :
  snd (fold_left (dnsSAN_step san) (machinev1.Addresses (machinev1.Status m)) st) = true
  <-> snd st = true \/ dnsSANOnMachine m san.
Proof.
  unfold dnsSANOnMachine. generalize (machinev1.Addresses (machinev1.Status m)).
  intros addresses. revert st.
  induction addresses as [|addr rest IH]; intros st; simpl.
  - split; [auto | intros [Hst | (addr & [] & _)]; exact Hst].
  - rewrite IH, dnsSAN_step_found. split.
    + intros [[Hst | Haddr] | (a & Hin & Ha)]; [left; exact Hst | right .. ].
      * exists addr. split; [left; reflexivity | exact Haddr].
      * exists a. split; [right; exact Hin | exact Ha].
    + intros [Hst | (a & [<- | Hin] & Ha)]; [left; left; exact Hst | left; right; exact Ha |].
      right. exists a. split; [exact Hin | exact Ha].
Qed.

Lemma checkDNSNames_None (m : machinev1.Machine) (sans : list string) :
  checkDNSNames (machinev1.Addresses (machinev1.Status m)) sans = None
  <-> forall san, In san sans -> san <> "" -> dnsSANOnMachine m san.
Proof.
  induction sans as [|san rest IH]; simpl.
  - split; [intros _ san [] | reflexivity].
  - destruct (len_string san =? 0) eqn:Hlen.
    + apply len_string_0 in Hlen. rewrite IH. split.
      * intros Hrest san' [<- | Hin] Hne; [contradiction | exact (Hrest san' Hin Hne)].
      * intros Hall san' Hin. apply Hall. right. exact Hin.
    + apply len_string_0_false in Hlen.
      pose proof (dnsSAN_loop san m ([], false)) as Hloop.
      destruct (fold_left (dnsSAN_step san) _ ([], false)) as [attempted [|]];
        simpl in *.
      * rewrite IH. split.
        -- intros Hrest san' [<- | Hin] Hne; [|exact (Hrest san' Hin Hne)].
           destruct Hloop as [Hloop _]. destruct (Hloop eq_refl) as [|Hon];
             [discriminate | exact Hon].
        -- intros Hall san' Hin. apply Hall. right. exact Hin.
      * split; [discriminate|]. intros Hall. exfalso.
        assert (Hon : dnsSANOnMachine m san) by (apply Hall; [left; reflexivity | exact Hlen]).
        destruct Hloop as [_ Hloop]. specialize (Hloop (or_intror Hon)). discriminate.
Qed.

Lemma ipSAN_step_found (san : IP) (st : list string * bool) (addr : corev1.NodeAddress) :
  snd (ipSAN_step san st addr) = true <->
  snd st = true \/
  ((corev1.Type_ addr = "InternalIP" \/ corev1.Type_ addr = "ExternalIP")
   /\ corev1.Address addr = IP_String san).
Proof.
  unfold ipSAN_step. destruct st as [attempted found].
  change corev1.NodeInternalIP with "InternalIP".
  change corev1.NodeExternalIP with "ExternalIP".
  destruct (String.eqb_spec (corev1.Type_ addr) "InternalIP");
    destruct (String.eqb_spec (corev1.Type_ addr) "ExternalIP"); simpl;
    try destruct (String.eqb_spec (IP_String san) (corev1.Address addr)); simpl;
    intuition congruence.
Qed.

Lemma ipSAN_loop (san : IP) (m : machinev1.Machine) (st : list string * bool) :
  snd (fold_left (ipSAN_step san) (machinev1.Addresses (machinev1.Status m)) st) = true
  <-> snd st = true \/ ipSANOnMachine m san.
Proof.
  unfold ipSANOnMachine. generalize (machinev1.Addresses (machinev1.Status m)).
  intros addresses. revert st.
  induction addresses as [|addr rest IH]; intros st; simpl.
  - split; [auto | intros [Hst | (addr & [] & _)]; exact Hst].
  - rewrite IH, ipSAN_step_found. split.
    + intros [[Hst | Haddr] | (a & Hin & Ha)]; [left; exact Hst | right .. ].
      * exists addr. split; [left; reflexivity | exact Haddr].
      * exists a. split; [right; exact Hin | exact Ha].
    + intros [Hst | (a & [<- | Hin] & Ha)]; [left; left; exact Hst | left; right; exact Ha |].
      right. exists a. split; [exact Hin | exact Ha].
Qed.

Lemma checkIPAddresses_None (m : machinev1.Machine) (sans : list IP) :
  checkIPAddresses (machinev1.Addresses (machinev1.Status m)) sans = None
  <-> forall san, In san sans -> san <> [] -> ipSANOnMachine m san.
Proof.
  induction sans as [|san rest IH]; simpl.
  - split; [intros _ san [] | reflexivity].
  - destruct (len san =? 0) eqn:Hlen.
    + apply len_0 in Hlen. rewrite IH. split.
      * intros Hrest san' [<- | Hin] Hne; [contradiction | exact (Hrest san' Hin Hne)].
      * intros Hall san' Hin. apply Hall. right. exact Hin.
    + assert (Hne : san <> []) by (intros ->; discriminate).
      pose proof (ipSAN_loop san m ([], false)) as Hloop.
      destruct (fold_left (ipSAN_step san) _ ([], false)) as [attempted [|]];
        simpl in *.
      * rewrite IH. split.
        -- intros Hrest san' [<- | Hin] Hne'; [|exact (Hrest san' Hin Hne')].
           destruct Hloop as [Hloop _]. destruct (Hloop eq_refl) as [|Hon];
             [discriminate | exact Hon].
        -- intros Hall san' Hin. apply Hall. right. exact Hin.
      * split; [discriminate|]. intros Hall. exfalso.
        assert (Hon : ipSANOnMachine m san) by (apply Hall; [left; reflexivity | exact Hne]).
        destruct Hloop as [_ Hloop]. specialize (Hloop (or_intror Hon)). discriminate.
Qed.

(** C2: on the machine-api path of a serving request, with [m] the
    Machine found by NodeRef, [authorizeCSR] returns [(true, nil)] when
    every non-empty DNS SAN is an InternalDNS, ExternalDNS or Hostname
    address of [m] and every non-empty IP SAN is, in its textual form, an
    InternalIP or ExternalIP address of [m], and [(false, err)] with a
    non-nil error when one of them is not; email and URI SANs play no
    part. *)
Theorem authorizeCSR_serving_fallback (c : Client)
  (config : ClusterMachineApproverConfig) (machines : list machinev1.Machine)
  (req : CSR) (csr : CertificateRequest) (ca : option CertPool)
  (askingName : string) (m : machinev1.Machine) :
  isNodeClientCert req csr = false ->
  servingShape req csr askingName ->
  ~ renewalApproves c askingName csr ca ->
  firstWithNodeRef askingName machines m ->
  (sansOnMachine csr m ->
   authorizeCSR c config machines (Some req) (Some csr) ca = (true, None)) /\
  (~ sansOnMachine csr m ->
   exists err, authorizeCSR c config machines (Some req) (Some csr) ca = (false, Some err)).
Proof.
  intros Hclient Hshape Hrenew Hfirst.
  rewrite (authorizeCSR_serving c config machines req csr ca askingName Hclient Hshape).
  rewrite <- authorizeCSR_renewal_iff in Hrenew. apply not_true_is_false in Hrenew.
  rewrite Hrenew. unfold authorizeCSR_machineAPI.
  rewrite (findMatchingMachineFromNodeRef_first _ _ _ Hfirst). simpl.
  unfold sansOnMachine. rewrite <- checkDNSNames_None, <- checkIPAddresses_None.
  destruct (checkDNSNames _ _) as [err|].
  - split; [intros [Hdns _]; discriminate | intros _; eexists; reflexivity].
  - destruct (checkIPAddresses _ _) as [err|].
    + split; [intros [_ Hip]; discriminate | intros _; eexists; reflexivity].
    + split; [reflexivity | intros Hno; exfalso; apply Hno; split; reflexivity].
Qed.

End Properties.

(** ** The scenarios, run *)

Section Scenarios.
#[local] Existing Instance scenario.

Ltac evaluate :=
  vm_compute; first [reflexivity | discriminate | intros Habs; discriminate Habs].

Ltac bootstrapper := apply isReqFromNodeBootstrapper_iff; evaluate.

Ltac not_found := eexists; split; vm_compute; reflexivity.

Ltac serving_shape :=
  unfold servingShape; simpl;
  repeat split; first [reflexivity | discriminate | tauto].

Ltac internalDNS_of_m1 :=
  exists {| corev1.Type_ := "InternalDNS"; corev1.Address := "ip-10-0-1-5" |};
  split; [left; reflexivity | split; reflexivity].

(** With the classifier of the specification, a node-serving request is
    never taken for a client-certificate request. *)
Lemma servingShape_not_client (req : certificatesv1.CertificateSigningRequest)
  (csr : x509.CertificateRequest URL) (askingName : string) :
  servingShape req csr askingName -> isNodeClientCert req csr = false.
Proof.
  intros (Huser & _). simpl. unfold isNodeClientCert_spec. rewrite Huser. reflexivity.
Qed.

(** Scenario 1 of the specification: the happy-path bootstrap. *)
Lemma authorizeNodeClientCSR_approves_witness :
  authorizeNodeClientCSR cluster [machine_m1]
    (bootstrapRequest (T0 + 5 * time.Minute)) (clientCSR "ip-10-0-1-5") = (true, None).
Proof.
  apply (authorizeNodeClientCSR_approves cluster [machine_m1]
           (bootstrapRequest (T0 + 5 * time.Minute)) (clientCSR "ip-10-0-1-5") machine_m1).
  - bootstrapper.
  - evaluate.
  - not_found.
  - exists [], []. split; [reflexivity|]. split; [constructor | internalDNS_of_m1].
  - reflexivity.
  - evaluate.
  - evaluate.
Defined.

(** The closed window of section 4.6 fails at both points where the code
    is stricter:
    a CSR created exactly two hours after its Machine is refused, and so
    is a CSR whose name is carried by a joined Machine listed before the
    fresh one. *)
Lemma authorizeNodeClientCSR_closed_window_counterexample :
  (fromNodeBootstrapper (bootstrapRequest (T0 + 2 * time.Hour)) /\
   bootstrapNodeName (clientCSR "ip-10-0-1-5") <> "" /\
   nodeNotFound cluster (bootstrapNodeName (clientCSR "ip-10-0-1-5")) /\
   someUnboundMachineInClosedWindow (bootstrapNodeName (clientCSR "ip-10-0-1-5"))
     [machine_m1] (T0 + 2 * time.Hour) /\
   authorizeNodeClientCSR cluster [machine_m1]
     (bootstrapRequest (T0 + 2 * time.Hour)) (clientCSR "ip-10-0-1-5") = (false, None)) /\
  (fromNodeBootstrapper (bootstrapRequest (T0 + 5 * time.Minute)) /\
   bootstrapNodeName (clientCSR "ip-10-0-1-5") <> "" /\
   nodeNotFound cluster (bootstrapNodeName (clientCSR "ip-10-0-1-5")) /\
   someUnboundMachineInClosedWindow (bootstrapNodeName (clientCSR "ip-10-0-1-5"))
     [machine_m1_bound; machine_m1] (T0 + 5 * time.Minute) /\
   authorizeNodeClientCSR cluster [machine_m1_bound; machine_m1]
     (bootstrapRequest (T0 + 5 * time.Minute)) (clientCSR "ip-10-0-1-5") = (false, None)).
Proof.
  split; (split; [bootstrapper|]; split; [evaluate|]; split; [not_found|];
          split; [|evaluate]); exists machine_m1.
  - split; [left; reflexivity|]. split; [internalDNS_of_m1|].
    split; [reflexivity|]. split; evaluate.
  - split; [right; left; reflexivity|]. split; [internalDNS_of_m1|].
    split; [reflexivity|]. split; evaluate.
Qed.

(** No Machine of the snapshot carries the name [ip-10-0-1-5]. *)
Lemma authorizeNodeClientCSR_no_machine_witness :
  exists err,
    authorizeNodeClientCSR cluster [machine_m2]
      (bootstrapRequest (T0 + 5 * time.Minute)) (clientCSR "ip-10-0-1-5") = (false, Some err).
Proof.
  apply (authorizeNodeClientCSR_no_machine cluster [machine_m2]
           (bootstrapRequest (T0 + 5 * time.Minute)) (clientCSR "ip-10-0-1-5")).
  - bootstrapper.
  - evaluate.
  - not_found.
  - repeat constructor. intros (addr & Hin & Hty & Haddr).
    simpl in Hin. destruct Hin as [<- | [<- | []]]; discriminate.
Defined.

(** The same call, read against section 4.6: the result carries an error,
    it is not the silent denial [(false, nil)]. *)
Lemma authorizeNodeClientCSR_no_machine_counterexample :
  fromNodeBootstrapper (bootstrapRequest (T0 + 5 * time.Minute)) /\
  bootstrapNodeName (clientCSR "ip-10-0-1-5") <> "" /\
  nodeNotFound cluster (bootstrapNodeName (clientCSR "ip-10-0-1-5")) /\
  Forall (fun m => ~ hasInternalDNS (bootstrapNodeName (clientCSR "ip-10-0-1-5")) m)
    [machine_m2] /\
  authorizeNodeClientCSR cluster [machine_m2]
    (bootstrapRequest (T0 + 5 * time.Minute)) (clientCSR "ip-10-0-1-5")
  = (false, Some (Errorf "failed to find machine for node %s" [Str "ip-10-0-1-5"])) /\
  authorizeNodeClientCSR cluster [machine_m2]
    (bootstrapRequest (T0 + 5 * time.Minute)) (clientCSR "ip-10-0-1-5") <> (false, None).
Proof.
  split; [bootstrapper|]. split; [evaluate|]. split; [not_found|].
  split; [|split; evaluate].
  repeat constructor. intros (addr & Hin & Hty & Haddr).
  simpl in Hin. destruct Hin as [<- | [<- | []]]; discriminate.
Qed.

Lemma m1_has_no_NodeRef (name : string) :
  Forall (fun m => ~ hasNodeRef name m) [machine_m1].
Proof. repeat constructor. intros (ref & Href & _). discriminate. Qed.

Lemma no_renewal_without_CA (c : Client) (name : string) (csr : x509.CertificateRequest URL) :
  ~ renewalApproves c name csr None.
Proof. intros (pool & cert & Hca & _). discriminate. Qed.

Lemma renewal_in_cluster :
  renewalApproves cluster "ip-10-0-1-6" (servingCSR ip_10_0_1_6) (Some tt).
Proof. exists tt, kubeletCert. split; [reflexivity|]. split; vm_compute; reflexivity. Qed.

(** A serving request of a node no Machine is linked to: requeued without
    a CA pool, approved as a renewal with one. *)
Lemma authorizeCSR_serving_no_machine_witness :
  (exists err,
     authorizeCSR cluster config_enabled [machine_m1] (Some servingRequest)
       (Some (servingCSR ip_10_0_1_6)) None = (false, Some err)) /\
  authorizeCSR cluster config_enabled [machine_m1] (Some servingRequest)
    (Some (servingCSR ip_10_0_1_6)) (Some tt) = (true, None).
Proof.
  split.
  - apply (authorizeCSR_serving_no_machine cluster config_enabled [machine_m1]
             servingRequest (servingCSR ip_10_0_1_6) None "ip-10-0-1-6").
    + evaluate.
    + serving_shape.
    + apply m1_has_no_NodeRef.
    + apply no_renewal_without_CA.
  - apply (authorizeCSR_serving_no_machine cluster config_enabled [machine_m1]
             servingRequest (servingCSR ip_10_0_1_6) (Some tt) "ip-10-0-1-6").
    + evaluate.
    + serving_shape.
    + apply m1_has_no_NodeRef.
    + apply renewal_in_cluster.
Defined.

(** Scenario 5 of the specification without a linked Machine: invariant 2
    asks for [(false, err)], the renewal flow approves. *)
Lemma authorizeCSR_serving_no_machine_counterexample :
  isNodeClientCert servingRequest (servingCSR ip_10_0_1_6) = false /\
  servingShape servingRequest (servingCSR ip_10_0_1_6) "ip-10-0-1-6" /\
  Forall (fun m => ~ hasNodeRef "ip-10-0-1-6" m) [machine_m1] /\
  authorizeCSR cluster config_enabled [machine_m1] (Some servingRequest)
    (Some (servingCSR ip_10_0_1_6)) (Some tt) = (true, None) /\
  ~ (exists err,
       authorizeCSR cluster config_enabled [machine_m1] (Some servingRequest)
         (Some (servingCSR ip_10_0_1_6)) (Some tt) = (false, Some err)).
Proof.
  split; [evaluate|]. split; [serving_shape|]. split; [apply m1_has_no_NodeRef|].
  split; [evaluate|]. intros (err & Habs). vm_compute in Habs. discriminate Habs.
Qed.

(** Scenarios 3 and 4 of the specification: the SANs of the request are
    addresses of the linked Machine, then the IP SAN is not. *)
Lemma authorizeCSR_serving_fallback_witness :
  authorizeCSR cluster config_enabled [machine_m2] (Some servingRequest)
    (Some (servingCSR ip_10_0_1_6)) None = (true, None) /\
  (exists err,
     authorizeCSR cluster config_enabled [machine_m2] (Some servingRequest)
       (Some (servingCSR ip_10_0_2_2)) None = (false, Some err)).
Proof.
  assert (Hfirst : firstWithNodeRef "ip-10-0-1-6" [machine_m2] machine_m2).
  { exists [], []. split; [reflexivity|]. split; [constructor|].
    exists {| corev1.Name := "ip-10-0-1-6" |}. split; reflexivity. }
  split.
  - apply (authorizeCSR_serving_fallback cluster config_enabled [machine_m2]
             servingRequest (servingCSR ip_10_0_1_6) None "ip-10-0-1-6" machine_m2).
    + evaluate.
    + serving_shape.
    + apply no_renewal_without_CA.
    + exact Hfirst.
    + split; intros san [<- | []] _.
      * exists {| corev1.Type_ := "InternalDNS"; corev1.Address := "ip-10-0-1-6" |}.
        split; [right; left; reflexivity|]. split; [left; reflexivity | reflexivity].
      * exists {| corev1.Type_ := "InternalIP"; corev1.Address := "10.0.1.6" |}.
        split; [left; reflexivity|]. split; [left; reflexivity | reflexivity].
  - apply (authorizeCSR_serving_fallback cluster config_enabled [machine_m2]
             servingRequest (servingCSR ip_10_0_2_2) None "ip-10-0-1-6" machine_m2).
    + evaluate.
    + serving_shape.
    + apply no_renewal_without_CA.
    + exact Hfirst.
    + intros [_ Hip].
      destruct (Hip ip_10_0_2_2) as (addr & Hin & Hty & Haddr);
        [left; reflexivity | discriminate |].
      simpl in Hin. destruct Hin as [<- | [<- | []]]; vm_compute in Haddr;
        discriminate Haddr.
Defined.

(** The three answers of the Node lookup. *)
Lemma authorizeNodeClientCSR_node_lookup_witness :
  authorizeNodeClientCSR cluster [machine_m1]
    (bootstrapRequest (T0 + 5 * time.Minute)) (clientCSR "ip-10-0-1-5")
  = authorizeNodeClientCSR_machine [machine_m1]
      (bootstrapRequest (T0 + 5 * time.Minute)) "ip-10-0-1-5" /\
  authorizeNodeClientCSR cluster [machine_m1]
    (bootstrapRequest (T0 + 5 * time.Minute)) (clientCSR "ip-10-0-1-6") = (false, None) /\
  (exists err,
     authorizeNodeClientCSR cluster_down [machine_m1]
       (bootstrapRequest (T0 + 5 * time.Minute)) (clientCSR "ip-10-0-1-5") = (false, Some err)).
Proof.
  split; [|split].
  - apply (authorizeNodeClientCSR_node_lookup cluster [machine_m1]
             (bootstrapRequest (T0 + 5 * time.Minute)) (clientCSR "ip-10-0-1-5"));
      [bootstrapper | evaluate | not_found].
  - apply (authorizeNodeClientCSR_node_lookup cluster [machine_m1]
             (bootstrapRequest (T0 + 5 * time.Minute)) (clientCSR "ip-10-0-1-6"));
      [bootstrapper | evaluate | exists node_6; reflexivity].
  - apply (authorizeNodeClientCSR_node_lookup cluster_down [machine_m1]
             (bootstrapRequest (T0 + 5 * time.Minute)) (clientCSR "ip-10-0-1-5"));
      [bootstrapper | evaluate | eexists; split; vm_compute; reflexivity].
Defined.

(** The backlog read at [T0]: two CSRs are recent and pending. *)
Lemma recentlyPendingCSRs_counts_witness :
  slice backlog /\
  recentlyPendingCSRs T0 backlog = len (filter (recentlyPending T0) backlog) /\
  recentlyPendingCSRs T0 backlog = 2.
Proof.
  assert (Hslice : slice backlog) by evaluate.
  split; [exact Hslice|]. split; [|evaluate].
  apply (recentlyPendingCSRs_counts T0 backlog Hslice).
Defined.

Lemma authorizeCSR_nil_request_witness :
  authorizeCSR cluster config_enabled [machine_m2] None
    (Some (servingCSR ip_10_0_1_6)) None = (false, None) /\
  authorizeCSR cluster config_enabled [machine_m2] (Some servingRequest) None None
  = (false, None).
Proof.
  split.
  - apply (authorizeCSR_nil_request cluster config_enabled [machine_m2] None
             (Some (servingCSR ip_10_0_1_6)) None).
    left. reflexivity.
  - apply (authorizeCSR_nil_request cluster config_enabled [machine_m2]
             (Some servingRequest) None None).
    right. reflexivity.
Defined.

(** The renewal of scenario 5: the kubelet's certificate verifies, the
    names agree and so do the SANs. *)
Lemma authorizeServingRenewal_nil_iff_witness :
  authorizeServingRenewal "ip-10-0-1-6" (Some (servingCSR ip_10_0_1_6)) (Some kubeletCert)
    {| x509.Roots := Some tt |} = None /\
  (forall s, In s (x509.csr_DNSNames (servingCSR ip_10_0_1_6))
             <-> In s (x509.DNSNames kubeletCert)).
Proof.
  pose proof (authorizeServingRenewal_nil_iff "ip-10-0-1-6"
                (Some (servingCSR ip_10_0_1_6)) (Some kubeletCert)
                {| x509.Roots := Some tt |}) as [Hiff Hsets].
  assert (Hnil : authorizeServingRenewal "ip-10-0-1-6" (Some (servingCSR ip_10_0_1_6))
                   (Some kubeletCert) {| x509.Roots := Some tt |} = None).
  { apply Hiff. exists (servingCSR ip_10_0_1_6), kubeletCert, tt.
    repeat split; reflexivity. }
  split; [exact Hnil | apply (Hsets _ _ Hnil)].
Defined.

(** Scenario 3 again: an approval comes without an error. *)
Lemma authorizeCSR_never_approves_with_error_witness :
  authorizeCSR cluster config_enabled [machine_m2] (Some servingRequest)
    (Some (servingCSR ip_10_0_1_6)) None = (true, None).
Proof.
  pose proof (authorizeCSR_never_approves_with_error cluster config_enabled [machine_m2]
                (Some servingRequest) (Some (servingCSR ip_10_0_1_6)) None) as Hshape.
  cbv zeta in Hshape. destruct Hshape as (_ & _ & Happroved).
  apply Happroved. evaluate.
Defined.

(** Reordered names compare as the ordered ones do, and lists of unequal
    length differ; a repeated name is not the same as a single one. *)
Lemma san_comparisons_order_insensitive_witness :
  equalStrings ["b"; "a"; "c"] ["c"; "b"; "a"]
  = equalStrings ["a"; "b"; "c"] ["a"; "b"; "c"] /\
  equalIPAddresses [ip_10_0_1_6; ip_10_0_2_2] [ip_10_0_2_2] = false.
Proof.
  destruct san_comparisons_order_insensitive
    as ((_ & _ & Hperm & _) & (_ & _ & _ & Hlen) & _).
  split.
  - apply Hperm.
    + apply perm_swap.
    + apply Permutation_sym, (Permutation_rev ["a"; "b"; "c"]).
  - apply Hlen. discriminate.
Defined.

Example equalStrings_counts_repetitions :
  equalStrings ["a"; "a"] ["a"] = false /\ equalStrings ["a"; "b"; "a"] ["b"; "a"; "a"] = true.
Proof. split; vm_compute; reflexivity. Qed.

End Scenarios.

(** ** Further properties of the functions of csr_check.go *)

Section Further.
Context `{Externals}.

Local Abbreviation CSR := certificatesv1.CertificateSigningRequest.
Local Abbreviation CertificateRequest := (x509.CertificateRequest URL).
Local Abbreviation Certificate := (x509.Certificate URL).

(** *** The Machine index *)

Lemma findMatchingMachineFromInternalDNS_found name machines m :
  findMatchingMachineFromInternalDNS name machines = (m, true) ->
  firstWithInternalDNS name machines m.
Proof.
  induction machines as [|machine rest IH]; simpl; [discriminate|].
  destruct (existsb _ _) eqn:Hex.
  - intros Heq. injection Heq as <-. apply isInternalDNSOf_iff in Hex.
    exists [], rest. split; [reflexivity|]. split; [constructor | exact Hex].
  - intros Hfind. destruct (IH Hfind) as (before & after & -> & Hbefore & Hm).
    exists (machine :: before), after. split; [reflexivity|].
    split; [|exact Hm]. constructor; [|exact Hbefore].
    intros Hhas. apply isInternalDNSOf_iff in Hhas. congruence.
Qed.



Lemma findMatchingMachineFromNodeRef_found name machines m :
  findMatchingMachineFromNodeRef name machines = (m, true) ->
  firstWithNodeRef name machines m.
Proof.
  induction machines as [|machine rest IH]; simpl; [discriminate|].
  destruct (machinev1.NodeRef (machinev1.Status machine)) as [ref|] eqn:Href.
  - destruct (String.eqb_spec (corev1.Name ref) name) as [Hname|Hname].
    + intros Heq. injection Heq as <-. exists [], rest.
      split; [reflexivity|]. split; [constructor|]. exists ref. auto.
    + intros Hfind. destruct (IH Hfind) as (before & after & -> & Hbefore & Hm).
      exists (machine :: before), after. split; [reflexivity|].
      split; [|exact Hm]. constructor; [|exact Hbefore].
      intros (ref' & Href' & Hname'). congruence.
  - intros Hfind. destruct (IH Hfind) as (before & after & -> & Hbefore & Hm).
    exists (machine :: before), after. split; [reflexivity|].
    split; [|exact Hm]. constructor; [|exact Hbefore].
    intros (ref' & Href' & _). congruence.
Qed.



(** X3: both lookups search a concatenated snapshot front to back: the
    answer for [l1 ++ l2] is the answer for [l1] when [l1] has a match,
    and the answer for [l2] otherwise. *)
Theorem findMatchingMachine_app (name : string) (l1 l2 : list machinev1.Machine) :
  findMatchingMachineFromInternalDNS name (l1 ++ l2) =
    (if snd (findMatchingMachineFromInternalDNS name l1)
     then findMatchingMachineFromInternalDNS name l1
     else findMatchingMachineFromInternalDNS name l2) /\
  findMatchingMachineFromNodeRef name (l1 ++ l2) =
    (if snd (findMatchingMachineFromNodeRef name l1)
     then findMatchingMachineFromNodeRef name l1
     else findMatchingMachineFromNodeRef name l2).
Proof.
  split; induction l1 as [|machine rest IH]; simpl; try reflexivity.
  - destruct (existsb _ _); [reflexivity | exact IH].
  - destruct (machinev1.NodeRef (machinev1.Status machine)) as [ref|]; [|exact IH].
    destruct (String.eqb (corev1.Name ref) name); [reflexivity | exact IH].
Qed.

(** *** The classifiers *)

(** X4: [validateCSRContents] returns a non-empty asking name without an
    error exactly when the username is [system:node:] followed by that
    name, the groups contain [system:nodes] and [system:authenticated],
    there are three usages among which digital signature, key
    encipherment and server auth, the common name is the username and the
    organizations contain [system:nodes]. *)
Theorem validateCSRContents_accepts_iff (req : CSR) (csr : CertificateRequest)
  (askingName : string) :
  validateCSRContents req csr = (askingName, None) /\ askingName <> ""
  <-> servingShape req csr askingName.
Proof. apply validateCSRContents_servingShape. Qed.

(** X5: [validateCSRContents] never returns a name together with an
    error, and a request whose username is not [system:node:] followed by
    a non-empty name gets the empty name and no error. *)
Theorem validateCSRContents_declines (req : CSR) (csr : CertificateRequest) :
  (forall name err, validateCSRContents req csr = (name, Some err) -> name = "") /\
  ((forall rest, rest <> "" ->
      certificatesv1.Username (certificatesv1.Spec req) <> "system:node:" +:+ rest) ->
   validateCSRContents req csr = ("", None)).
Proof.
  split.
  - intros name err. unfold validateCSRContents. cbv zeta.
    repeat match goal with
           | |- context [if ?b then _ else _] => destruct b
           end;
      intros Heq; congruence.
  - intros Hrest. unfold validateCSRContents. cbv zeta.
    change nodeUserPrefix with "system:node:".
    destruct (strings_HasPrefix _ "system:node:") eqn:Hpre; simpl; [|reflexivity].
    unfold strings_TrimPrefix. rewrite Hpre.
    destruct (len_string _ =? 0) eqn:Hlen; [reflexivity|].
    apply len_string_0_false in Hlen. apply HasPrefix_inv in Hpre.
    exfalso. exact (Hrest _ Hlen Hpre).
Qed.

(** X6: when [validateCSRContents] accepts a request, its usages are
    digital signature, key encipherment and server auth, each once, in
    some order. *)
Theorem validateCSRContents_usages (req : CSR) (csr : CertificateRequest)
  (askingName : string) :
  validateCSRContents req csr = (askingName, None) -> askingName <> "" ->
  Permutation (certificatesv1.Usages (certificatesv1.Spec req))
    ["digital signature"; "key encipherment"; "server auth"]%string.
Proof.
  intros Hv Hne.
  destruct (proj1 (validateCSRContents_servingShape req csr askingName) (conj Hv Hne))
    as (_ & _ & _ & _ & Hlen & Hu1 & Hu2 & Hu3 & _).
  symmetry. apply submseteq_length_Permutation; [|simpl; lia].
  apply NoDup_submseteq.
  - repeat (constructor; [rewrite ?elem_of_cons, ?elem_of_nil; intuition discriminate|]).
    constructor.
  - intros usage. rewrite !elem_of_cons, elem_of_nil, list_elem_of_In.
    intros [-> | [-> | [-> | []]]]; assumption.
Qed.

(** X7: [isReqFromNodeBootstrapper] holds exactly for the bootstrapper's
    username with exactly the bootstrapper's three groups; the order of
    the groups and their repetition play no part. *)
Theorem isReqFromNodeBootstrapper_spec (req : CSR) :
  (isReqFromNodeBootstrapper req = true <-> fromNodeBootstrapper req) /\
  (forall req' : CSR,
     certificatesv1.Username (certificatesv1.Spec req')
     = certificatesv1.Username (certificatesv1.Spec req) ->
     (forall g, In g (certificatesv1.Groups (certificatesv1.Spec req'))
                <-> In g (certificatesv1.Groups (certificatesv1.Spec req))) ->
     isReqFromNodeBootstrapper req' = isReqFromNodeBootstrapper req).
Proof.
  split; [apply isReqFromNodeBootstrapper_iff|].
  intros req' Huser Hgroups. apply Bool.eq_iff_eq_true.
  rewrite !isReqFromNodeBootstrapper_iff. unfold fromNodeBootstrapper.
  rewrite Huser. apply and_iff_compat_l.
  split; intros Hg g; [rewrite <- Hgroups | rewrite Hgroups]; apply Hg.
Qed.

(** *** The dispatcher *)

(** X8: a request that is neither a client-certificate request nor a
    node-serving request is left alone: [authorizeCSR] returns
    [(false, nil)], also when [validateCSRContents] reports an error. *)
Theorem authorizeCSR_ignores_other_requests (c : Client)
  (config : ClusterMachineApproverConfig) (machines : list machinev1.Machine)
  (req : CSR) (csr : CertificateRequest) (ca : option CertPool) :
  isNodeClientCert req csr = false ->
  (forall askingName, ~ servingShape req csr askingName) ->
  authorizeCSR c config machines (Some req) (Some csr) ca = (false, None).
Proof.
  intros Hclient Hshape. unfold authorizeCSR. rewrite Hclient.
  destruct (validateCSRContents req csr) as [name [err|]] eqn:Hv.
  - rewrite orb_true_r. reflexivity.
  - destruct (String.eqb_spec name "") as [->|Hne]; [reflexivity|].
    exfalso. apply (Hshape name). apply validateCSRContents_servingShape. auto.
Qed.

Lemma authorizeCSR_serving_true_iff (c : Client)
  (config : ClusterMachineApproverConfig) (machines : list machinev1.Machine)
  (req : CSR) (csr : CertificateRequest) (ca : option CertPool) (askingName : string) :
  isNodeClientCert req csr = false ->
  servingShape req csr askingName ->
  (authorizeCSR c config machines (Some req) (Some csr) ca = (true, None)
   <-> renewalApproves c askingName csr ca \/
       exists m, firstWithNodeRef askingName machines m /\ sansOnMachine csr m).
Proof.
  intros Hclient Hshape.
  rewrite (authorizeCSR_serving c config machines req csr ca askingName Hclient Hshape).
  rewrite <- authorizeCSR_renewal_iff.
  destruct (authorizeCSR_renewal c askingName csr ca); [split; auto|].
  unfold authorizeCSR_machineAPI.
  destruct (findMatchingMachineFromNodeRef askingName machines) as [m found] eqn:Hfind.
  assert (Hsans : forall m', sansOnMachine csr m' <->
            checkDNSNames (machinev1.Addresses (machinev1.Status m')) (x509.csr_DNSNames csr)
            = None /\
            checkIPAddresses (machinev1.Addresses (machinev1.Status m'))
              (x509.csr_IPAddresses csr) = None).
  { intros m'. unfold sansOnMachine.
    rewrite <- checkDNSNames_None, <- checkIPAddresses_None. reflexivity. }
  destruct found; simpl.
  - pose proof (findMatchingMachineFromNodeRef_found _ _ _ Hfind) as Hfirst. split.
    + intros Hres. right. exists m. split; [exact Hfirst|]. apply Hsans.
      destruct (checkDNSNames _ _); [discriminate|].
      destruct (checkIPAddresses _ _); [discriminate|]. auto.
    + intros [Habs | (m' & Hfirst' & Hon)]; [discriminate|].
      apply findMatchingMachineFromNodeRef_first in Hfirst'.
      rewrite Hfind in Hfirst'. injection Hfirst' as <-.
      apply Hsans in Hon. destruct Hon as [-> ->]. reflexivity.
  - split; [discriminate|]. intros [Habs | (m' & Hfirst' & _)]; [discriminate|].
    apply findMatchingMachineFromNodeRef_first in Hfirst'. congruence.
Qed.

(** X9: a node-serving request is approved exactly when the renewal flow
    approves it, or the first Machine whose NodeRef names the node carries
    every non-empty DNS and IP SAN of the request among its addresses. *)
Theorem authorizeCSR_serving_approves_iff (c : Client)
  (config : ClusterMachineApproverConfig) (machines : list machinev1.Machine)
  (req : CSR) (csr : CertificateRequest) (ca : option CertPool) (askingName : string) :
  isNodeClientCert req csr = false ->
  servingShape req csr askingName ->
  (authorizeCSR c config machines (Some req) (Some csr) ca = (true, None)
   <-> renewalApproves c askingName csr ca \/
       exists m, firstWithNodeRef askingName machines m /\ sansOnMachine csr m).
Proof. apply authorizeCSR_serving_true_iff. Qed.


(** *** The bootstrap authorizer *)

Lemma authorizeNodeClientCSR_machine_approves_iff machines (req : CSR) name :
  authorizeNodeClientCSR_machine machines req name = (true, None) <->
  exists m, firstWithInternalDNS name machines m /\
    machinev1.NodeRef (machinev1.Status m) = None /\
    machinev1.CreationTimestamp m - 10 * 1000000000 < certificatesv1.CreationTimestamp req /\
    certificatesv1.CreationTimestamp req < machinev1.CreationTimestamp m + 2 * 3600 * 1000000000.
Proof.
  unfold authorizeNodeClientCSR_machine.
  destruct (findMatchingMachineFromInternalDNS name machines) as [m found] eqn:Hfind.
  destruct found; simpl.
  - pose proof (findMatchingMachineFromInternalDNS_found _ _ _ Hfind) as Hfirst.
    assert (Hsame : forall m', firstWithInternalDNS name machines m' -> m' = m).
    { intros m' Hm'. apply findMatchingMachineFromInternalDNS_first in Hm'. congruence. }
    destruct (machinev1.NodeRef (machinev1.Status m)) as [ref|] eqn:Href.
    + split; [discriminate|]. intros (m' & Hm' & Href' & _).
      apply Hsame in Hm'. subst m'. congruence.
    + destruct (inTimeSpan _ _ _) eqn:Hspan; simpl.
      * split; [|reflexivity]. intros _. exists m.
        apply inTimeSpan_iff in Hspan. destruct Hspan as [Hlo Hhi]. auto.
      * split; [discriminate|]. intros (m' & Hm' & _ & Hlo & Hhi).
        apply Hsame in Hm'. subst m'.
        assert (Hin : inTimeSpan
                        (time.Add (machinev1.CreationTimestamp m) (- maxMachineClockSkew))
                        (time.Add (machinev1.CreationTimestamp m) maxMachineDelta)
                        (certificatesv1.CreationTimestamp req) = true)
          by (apply inTimeSpan_iff; split; [exact Hlo | exact Hhi]).
        congruence.
  - split; [discriminate|]. intros (m' & Hm' & _).
    apply findMatchingMachineFromInternalDNS_first in Hm'. congruence.
Qed.

Lemma authorizeNodeClientCSR_true_iff (c : Client)
  (machines : list machinev1.Machine) (req : CSR) (csr : CertificateRequest) :
  authorizeNodeClientCSR c machines req csr = (true, None) <->
  fromNodeBootstrapper req /\
  bootstrapNodeName csr <> "" /\
  nodeNotFound c (bootstrapNodeName csr) /\
  exists m, firstWithInternalDNS (bootstrapNodeName csr) machines m /\
    machinev1.NodeRef (machinev1.Status m) = None /\
    machinev1.CreationTimestamp m - 10 * 1000000000 < certificatesv1.CreationTimestamp req /\
    certificatesv1.CreationTimestamp req < machinev1.CreationTimestamp m + 2 * 3600 * 1000000000.
Proof.
  split.
  - unfold authorizeNodeClientCSR.
    destruct (isReqFromNodeBootstrapper req) eqn:Hboot; simpl; [|discriminate].
    apply isReqFromNodeBootstrapper_iff in Hboot.
    change nodeUserPrefix with "system:node:". fold (bootstrapNodeName csr).
    destruct (len_string (bootstrapNodeName csr) =? 0) eqn:Hlen; [discriminate|].
    apply len_string_0_false in Hlen.
    destruct (Get c (bootstrapNodeName csr)) as [node|err] eqn:Hget; [discriminate|].
    destruct (IsNotFound err) eqn:Hnf; simpl; [|discriminate].
    intros Hmachine. apply authorizeNodeClientCSR_machine_approves_iff in Hmachine.
    split; [exact Hboot|]. split; [exact Hlen|]. split; [|exact Hmachine].
    exists err. auto.
  - intros (Hboot & Hname & (err & Hget & Hnf) & Hmachine).
    rewrite (authorizeNodeClientCSR_reaches_lookup c machines req csr Hboot Hname).
    rewrite Hget, Hnf. simpl. apply authorizeNodeClientCSR_machine_approves_iff, Hmachine.
Qed.

(** X10: [authorizeNodeClientCSR] approves exactly when the requester is
    the node bootstrapper, the common name gives a non-empty node name,
    the API answers "not found" for that Node, and the first Machine with
    that InternalDNS address has no NodeRef and was created less than 2h
    before and less than 10s after the CSR. *)
Theorem authorizeNodeClientCSR_approves_iff (c : Client)
  (machines : list machinev1.Machine) (req : CSR) (csr : CertificateRequest) :
  authorizeNodeClientCSR c machines req csr = (true, None) <->
  fromNodeBootstrapper req /\
  bootstrapNodeName csr <> "" /\
  nodeNotFound c (bootstrapNodeName csr) /\
  exists m, firstWithInternalDNS (bootstrapNodeName csr) machines m /\
    machinev1.NodeRef (machinev1.Status m) = None /\
    machinev1.CreationTimestamp m - 10 * 1000000000 < certificatesv1.CreationTimestamp req /\
    certificatesv1.CreationTimestamp req < machinev1.CreationTimestamp m + 2 * 3600 * 1000000000.
Proof. apply authorizeNodeClientCSR_true_iff. Qed.


(** X12: a request that does not come from the node bootstrapper, or
    whose common name leaves no node name, is denied without an error and
    without a Node lookup: the answer is the same for every API client
    and every snapshot. *)
Theorem authorizeNodeClientCSR_not_bootstrap (c : Client)
  (machines : list machinev1.Machine) (req : CSR) (csr : CertificateRequest) :
  ~ fromNodeBootstrapper req \/ bootstrapNodeName csr = "" ->
  authorizeNodeClientCSR c machines req csr = (false, None).
Proof.
  intros Hnot. unfold authorizeNodeClientCSR.
  destruct (isReqFromNodeBootstrapper req) eqn:Hboot; simpl; [|reflexivity].
  apply isReqFromNodeBootstrapper_iff in Hboot.
  destruct Hnot as [Hnot | Hname]; [contradiction|].
  apply len_string_0 in Hname. unfold bootstrapNodeName in Hname.
  change nodeUserPrefix with "system:node:". rewrite Hname. reflexivity.
Qed.

(** *** The backlog count *)

Lemma slice_app {A} (a b : list A) : slice (a ++ b) -> slice a /\ slice b.
Proof. unfold slice, len. rewrite length_app. lia. Qed.

(** X13: the backlog count lies between 0 and the number of CSRs given. *)
Theorem recentlyPendingCSRs_bounds (now : time.Time) (csrs : list CSR) :
  slice csrs ->
  0 <= recentlyPendingCSRs now csrs <= len csrs.
Proof.
  intros Hslice. unfold recentlyPendingCSRs.
  rewrite recentlyPending_loop; [|lia|exact Hslice].
  unfold len. pose proof (length_filter (recentlyPending now) csrs). lia.
Qed.

(** X14: for a fixed clock the backlog count is additive over
    concatenation, hence it never decreases when CSRs are added. *)
Theorem recentlyPendingCSRs_app (now : time.Time) (a b : list CSR) :
  slice (a ++ b) ->
  recentlyPendingCSRs now (a ++ b)
  = recentlyPendingCSRs now a + recentlyPendingCSRs now b
  /\ recentlyPendingCSRs now a <= recentlyPendingCSRs now (a ++ b).
Proof.
  intros Hslice. destruct (slice_app a b Hslice) as [Ha Hb].
  unfold recentlyPendingCSRs.
  rewrite !recentlyPending_loop by (first [lia | assumption]).
  rewrite filter_app. unfold len. rewrite length_app. lia.
Qed.

(** X15: for a fixed clock the backlog count does not depend on the order
    of the CSRs. *)
Theorem recentlyPendingCSRs_Permutation (now : time.Time) (a b : list CSR) :
  slice a -> Permutation a b ->
  recentlyPendingCSRs now a = recentlyPendingCSRs now b.
Proof.
  intros Ha Hperm.
  assert (Hb : slice b).
  { unfold slice, len in *. rewrite <- (Permutation_length Hperm). exact Ha. }
  unfold recentlyPendingCSRs.
  rewrite !recentlyPending_loop by (first [lia | assumption]).
  unfold len. f_equal. f_equal. apply Permutation_length.
  rewrite Hperm. reflexivity.
Qed.

(** X16: [isApproved] holds exactly when some condition of the CSR has
    type Approved, wherever it stands among the conditions; conditions of
    other types, Denied among them, play no part. *)
Theorem isApproved_iff (csr : CSR) :
  isApproved csr = true <->
  exists cond, In cond (certificatesv1.Conditions (certificatesv1.Status csr)) /\
    certificatesv1.Type_ cond = "Approved".
Proof.
  unfold isApproved.
  induction (certificatesv1.Conditions (certificatesv1.Status csr)) as [|cond rest IH];
    simpl.
  - split; [discriminate | intros (cond & [] & _)].
  - destruct (String.eqb_spec (certificatesv1.Type_ cond) certificatesv1.CertificateApproved)
      as [Heq|Hne].
    + split; [|reflexivity]. intros _. exists cond. split; [left; reflexivity | exact Heq].
    + rewrite IH. split.
      * intros (cond' & Hin & Hty). exists cond'. split; [right; exact Hin | exact Hty].
      * intros (cond' & [<- | Hin] & Hty); [contradiction|]. exists cond'. auto.
Qed.

(** *** The kubelet probe *)

Lemma nodeInternalIP_addresses_found name addresses host :
  nodeInternalIP_addresses name addresses = (host, None) <->
  exists before addr after, addresses = (before ++ addr :: after)%list /\
    Forall (fun a => corev1.Type_ a <> "InternalIP") before /\
    corev1.Type_ addr = "InternalIP" /\ corev1.Address addr = host.
Proof.
  induction addresses as [|address rest IH]; simpl.
  - split; [discriminate|]. intros (before & addr & after & Heq & _).
    destruct before; discriminate.
  - destruct (String.eqb_spec (corev1.Type_ address) corev1.NodeInternalIP) as [Hty|Hty].
    + split.
      * intros Heq. injection Heq as <-. exists [], address, rest.
        split; [reflexivity|]. split; [constructor|]. auto.
      * intros (before & addr & after & Heq & Hbefore & _ & Haddr).
        destruct before as [|a before]; simpl in Heq; injection Heq as -> ->.
        -- rewrite Haddr. reflexivity.
        -- apply Forall_cons_iff in Hbefore. destruct Hbefore as [Hne _]. contradiction.
    + rewrite IH. split.
      * intros (before & addr & after & -> & Hbefore & Haddr).
        exists (address :: before), addr, after. split; [reflexivity|].
        split; [constructor; assumption | exact Haddr].
      * intros (before & addr & after & Heq & Hbefore & Haddr).
        destruct before as [|a before]; simpl in Heq; injection Heq as -> ->.
        -- destruct Haddr as [Haddr _]. contradiction.
        -- apply Forall_cons_iff in Hbefore. destruct Hbefore as [_ Hbefore].
           exists before, addr, after. auto.
Qed.

Lemma nodeInternalIP_addresses_error name addresses :
  (forall host err, nodeInternalIP_addresses name addresses = (host, Some err) -> host = "") /\
  (snd (nodeInternalIP_addresses name addresses) <> None <->
   Forall (fun a => corev1.Type_ a <> "InternalIP") addresses).
Proof.
  induction addresses as [|address rest [IHhost IHerr]]; simpl.
  - split; [intros host err Heq; congruence|]. split; [constructor | discriminate].
  - destruct (String.eqb_spec (corev1.Type_ address) corev1.NodeInternalIP) as [Hty|Hty];
      simpl.
    + split; [discriminate|]. split; [congruence|].
      intros Hall. apply Forall_cons_iff in Hall. destruct Hall as [Hne _]. contradiction.
    + split; [exact IHhost|]. rewrite IHerr, Forall_cons_iff. tauto.
Qed.

(** X17: [nodeInternalIP] returns the address of the first entry of type
    InternalIP among the Node's addresses; it returns an error, with an
    empty host, exactly when the Node has no such entry. *)
Theorem nodeInternalIP_spec (node : corev1.Node) :
  (forall host, nodeInternalIP node = (host, None) <->
     exists before addr after,
       corev1.node_Addresses node = (before ++ addr :: after)%list /\
       Forall (fun a => corev1.Type_ a <> "InternalIP") before /\
       corev1.Type_ addr = "InternalIP" /\ corev1.Address addr = host) /\
  (snd (nodeInternalIP node) <> None <->
   Forall (fun a => corev1.Type_ a <> "InternalIP") (corev1.node_Addresses node)) /\
  (forall host err, nodeInternalIP node = (host, Some err) -> host = "").
Proof.
  unfold nodeInternalIP. split; [|split].
  - intros host. apply nodeInternalIP_addresses_found.
  - apply nodeInternalIP_addresses_error.
  - apply nodeInternalIP_addresses_error.
Qed.

(** X18: [getServingCert] returns either a certificate and no error, or
    no certificate and an error, never both and never neither; without a
    CA pool it fails before the API client is used, and a failed Node
    fetch is returned as it is. *)
Theorem getServingCert_result (c : Client) (nodeName : string) (ca : option CertPool) :
  ((exists cert, getServingCert c nodeName ca = (Some cert, None)) \/
   (exists err, getServingCert c nodeName ca = (None, Some err))) /\
  getServingCert c nodeName None
  = (None, Some (Errorf "no CA found: will not retrieve serving cert" [])) /\
  (forall pool err, Get c nodeName = inr err ->
     getServingCert c nodeName (Some pool) = (None, Some err)).
Proof.
  split; [|split].
  - unfold getServingCert. destruct ca as [pool|]; [|right; eexists; reflexivity].
    destruct (Get c nodeName) as [node|err]; [|right; eexists; reflexivity].
    destruct (nodeInternalIP node) as [host [err|]]; [right; eexists; reflexivity|].
    destruct (DialWithDialer _ _ _ _) as [[cert rest]|err];
      [left | right]; eexists; reflexivity.
  - reflexivity.
  - intros pool err Hget. unfold getServingCert. rewrite Hget. reflexivity.
Qed.

(** X19: [getServingCert] returns a certificate exactly when a CA pool is
    given, the Node is fetched, and the dial of the Node's first
    InternalIP address at the kubelet port, with that address as server
    name and a 30s timeout, succeeds; the certificate is the leaf the
    connection presents. *)
Theorem getServingCert_success_iff (c : Client) (nodeName : string)
  (ca : option CertPool) (cert : Certificate) :
  getServingCert c nodeName ca = (Some cert, None) <->
  exists pool node before addr after rest,
    ca = Some pool /\ Get c nodeName = inl node /\
    corev1.node_Addresses node = (before ++ addr :: after)%list /\
    Forall (fun a => corev1.Type_ a <> "InternalIP") before /\
    corev1.Type_ addr = "InternalIP" /\
    DialWithDialer (30 * 1000000000)
      (net_JoinHostPort (corev1.Address addr) (strconv_Itoa (corev1.node_KubeletPort node)))
      pool (corev1.Address addr) = inl (cert, rest).
Proof.
  unfold getServingCert. split.
  - destruct ca as [pool|]; [|discriminate].
    destruct (Get c nodeName) as [node|err]; [|discriminate].
    destruct (nodeInternalIP node) as [host [err|]] eqn:Hip; [discriminate|].
    apply nodeInternalIP_addresses_found in Hip.
    destruct Hip as (before & addr & after & Haddrs & Hbefore & Hty & <-).
    destruct (DialWithDialer _ _ _ _) as [[leaf rest]|err] eqn:Hdial; [|discriminate].
    intros Heq. injection Heq as <-.
    exists pool, node, before, addr, after, rest. auto 10.
  - intros (pool & node & before & addr & after & rest & -> & -> & Haddrs & Hbefore
            & Hty & Hdial).
    assert (Hip : nodeInternalIP node = (corev1.Address addr, None)).
    { apply nodeInternalIP_addresses_found. exists before, addr, after. auto. }
    rewrite Hip. change (30 * time.Second) with (30 * 1000000000). rewrite Hdial.
    reflexivity.
Qed.

(** *** The SAN comparison utilities *)

(** X20: each SAN comparison reports equality exactly when the canonical
    strings of the two slices are the same up to order, each string
    occurring as often on both sides. *)
Theorem san_comparisons_decide_permutation :
  (forall a b : list string, equalStrings a b = true <-> Permutation a b) /\
  (forall a b : list IP, equalIPAddresses a b = true
                         <-> Permutation (map IP_String a) (map IP_String b)) /\
  (forall a b : list URL, equalURLs a b = true
                          <-> Permutation (map URL_String a) (map URL_String b)).
Proof.
  split; [|split].
  - apply equalStrings_iff.
  - apply equalIPAddresses_iff.
  - apply equalURLs_iff.
Qed.

(** X21: each SAN comparison is transitive. *)
Theorem san_comparisons_transitive :
  (forall a b c : list string,
     equalStrings a b = true -> equalStrings b c = true -> equalStrings a c = true) /\
  (forall a b c : list IP,
     equalIPAddresses a b = true -> equalIPAddresses b c = true ->
     equalIPAddresses a c = true) /\
  (forall a b c : list URL,
     equalURLs a b = true -> equalURLs b c = true -> equalURLs a c = true).
Proof.
  split; [|split]; intros a b c.
  - rewrite !equalStrings_iff. apply Permutation_trans.
  - rewrite !equalIPAddresses_iff. apply Permutation_trans.
  - rewrite !equalURLs_iff. apply Permutation_trans.
Qed.

(** X22: the SAN comparisons agree with concatenation, equal parts giving
    equal wholes, and only the empty slice equals the empty slice. *)
Theorem san_comparisons_app :
  (forall a b c d : list string,
     equalStrings a b = true -> equalStrings c d = true ->
     equalStrings (a ++ c) (b ++ d) = true) /\
  (forall a b c d : list IP,
     equalIPAddresses a b = true -> equalIPAddresses c d = true ->
     equalIPAddresses (a ++ c) (b ++ d) = true) /\
  (forall a b c d : list URL,
     equalURLs a b = true -> equalURLs c d = true ->
     equalURLs (a ++ c) (b ++ d) = true) /\
  (forall a : list string, equalStrings a [] = true <-> a = []) /\
  (forall a : list IP, equalIPAddresses a [] = true <-> a = []) /\
  (forall a : list URL, equalURLs a [] = true <-> a = []).
Proof.
  split; [|split; [|split; [|split; [|split]]]].
  - intros a b c d. rewrite !equalStrings_iff. apply Permutation_app.
  - intros a b c d. rewrite !equalIPAddresses_iff, !map_app. apply Permutation_app.
  - intros a b c d. rewrite !equalURLs_iff, !map_app. apply Permutation_app.
  - intros a. rewrite equalStrings_iff. apply Permutation_nil_r.
  - intros a. rewrite equalIPAddresses_iff, Permutation_nil_r.
    destruct a; simpl; split; congruence.
  - intros a. rewrite equalURLs_iff, Permutation_nil_r.
    destruct a; simpl; split; congruence.
Qed.

(** *** The serving-renewal authorizer *)

(** X23: [authorizeServingRenewal] refuses a nil request, a nil
    certificate or nil roots with its own error, and hands a failure of
    the certificate's verification back as it is. *)
Theorem authorizeServingRenewal_errors (nodeName : string)
  (csr : option CertificateRequest) (currentCert : option Certificate)
  (options : x509.VerifyOptions CertPool) :
  (csr = None \/ currentCert = None \/ x509.Roots options = None ->
   authorizeServingRenewal nodeName csr currentCert options
   = Some (Errorf "CSR, serving cert, or CA not provided" [])) /\
  (forall request cert roots err,
     x509.Roots options = Some roots -> Verify cert options = Some err ->
     authorizeServingRenewal nodeName (Some request) (Some cert) options = Some err).
Proof.
  unfold authorizeServingRenewal. split.
  - intros [-> | [-> | ->]]; [reflexivity | |].
    + destruct csr; reflexivity.
    + destruct csr, currentCert; reflexivity.
  - intros request cert roots err -> ->. reflexivity.
Qed.

Lemma san_listing_loop {A} (f : A -> string) (l : list A) (sans : list string) :
  fold_left (fun sans x => (sans ++ [f x])%list) l sans = (sans ++ map f l)%list.
Proof.
  revert sans. induction l as [|x l IH]; intros sans; simpl.
  - rewrite app_nil_r. reflexivity.
  - rewrite IH, <- app_assoc. reflexivity.
Qed.

Lemma csrSANs_certSANs_listing_eq :
  (forall csr : CertificateRequest,
     csrSANs (Some csr)
     = (x509.csr_DNSNames csr ++ x509.csr_EmailAddresses csr
        ++ map IP_String (x509.csr_IPAddresses csr)
        ++ map URL_String (x509.csr_URIs csr))%list) /\
  (forall cert : Certificate,
     certSANs (Some cert)
     = (x509.DNSNames cert ++ x509.EmailAddresses cert
        ++ map IP_String (x509.IPAddresses cert)
        ++ map URL_String (x509.URIs cert))%list).
Proof.
  split; intros x; unfold csrSANs, certSANs; cbv zeta;
    rewrite !san_listing_loop; simpl; rewrite <- !app_assoc; reflexivity.
Qed.

(** X24: [csrSANs] and [certSANs] list the DNS names, then the email
    addresses, then the IP addresses and then the URIs in their textual
    forms, each group in its order; for nil they give the empty slice. *)
Theorem csrSANs_certSANs_listing :
  csrSANs None = [] /\ certSANs None = [] /\
  (forall csr : CertificateRequest,
     csrSANs (Some csr)
     = (x509.csr_DNSNames csr ++ x509.csr_EmailAddresses csr
        ++ map IP_String (x509.csr_IPAddresses csr)
        ++ map URL_String (x509.csr_URIs csr))%list) /\
  (forall cert : Certificate,
     certSANs (Some cert)
     = (x509.DNSNames cert ++ x509.EmailAddresses cert
        ++ map IP_String (x509.IPAddresses cert)
        ++ map URL_String (x509.URIs cert))%list).
Proof.
  split; [reflexivity|]. split; [reflexivity|].
  apply csrSANs_certSANs_listing_eq.
Qed.

Lemma authorizeServingRenewal_nil_sameSANs nodeName (request : CertificateRequest)
  (cert : Certificate) options :
  authorizeServingRenewal nodeName (Some request) (Some cert) options = None ->
  sameSANs cert request.
Proof.
  unfold authorizeServingRenewal, sameSANs.
  destruct (x509.Roots options); [|discriminate].
  destruct (Verify cert options); [discriminate|].
  destruct (negb (String.eqb _ (nodeUser +:+ ":" +:+ nodeName))); [discriminate|].
  destruct (negb (String.eqb _ _)); [discriminate|].
  destruct (equalStrings (x509.DNSNames cert) _) eqn:Hdns; [|discriminate].
  destruct (equalStrings (x509.EmailAddresses cert) _) eqn:Hemail; [|discriminate].
  destruct (equalIPAddresses _ _) eqn:Hip; [|discriminate].
  destruct (equalURLs _ _) eqn:Huri; [|discriminate].
  intros _. apply equalStrings_iff in Hdns, Hemail.
  apply equalIPAddresses_iff in Hip. apply equalURLs_iff in Huri. auto.
Qed.

(** X25: when [authorizeServingRenewal] authorizes a renewal, the SAN
    values the log would print for the certificate and for the request,
    [certSANs] and [csrSANs], are the same strings up to order. *)
Theorem renewal_SAN_listings_agree (nodeName : string) (request : CertificateRequest)
  (cert : Certificate) (options : x509.VerifyOptions CertPool) :
  authorizeServingRenewal nodeName (Some request) (Some cert) options = None ->
  Permutation (certSANs (Some cert)) (csrSANs (Some request)).
Proof.
  intros Hnil. apply authorizeServingRenewal_nil_sameSANs in Hnil.
  destruct Hnil as (Hdns & Hemail & Hip & Huri).
  destruct csrSANs_certSANs_listing_eq as [Hcsr Hcert].
  rewrite Hcsr, Hcert.
  repeat apply Permutation_app; assumption.
Qed.

(** *** The errors of the machine-api path *)

Lemma dnsSAN_loop_attempted (san : string) (addresses : list corev1.NodeAddress)
  (attempted : list string) (found : bool) :
  (forall addr, In addr addresses ->
     corev1.Type_ addr = "InternalDNS" \/ corev1.Type_ addr = "ExternalDNS"
     \/ corev1.Type_ addr = "Hostname" ->
     corev1.Address addr <> san) ->
  fold_left (dnsSAN_step san) addresses (attempted, found)
  = ((attempted ++ map corev1.Address
        (filter (fun addr => corev1.Type_ addr = "InternalDNS"
                             \/ corev1.Type_ addr = "ExternalDNS"
                             \/ corev1.Type_ addr = "Hostname") addresses))%list,
     found).
Proof.
  revert attempted. induction addresses as [|addr rest IH]; intros attempted Hno; simpl.
  - rewrite app_nil_r. reflexivity.
  - rewrite filter_cons.
    change corev1.NodeInternalDNS with "InternalDNS".
    change corev1.NodeExternalDNS with "ExternalDNS".
    change corev1.NodeHostName with "Hostname".
    assert (Hrest : forall a, In a rest ->
              corev1.Type_ a = "InternalDNS" \/ corev1.Type_ a = "ExternalDNS"
              \/ corev1.Type_ a = "Hostname" -> corev1.Address a <> san)
      by (intros a Ha; apply Hno; right; exact Ha).
    destruct (decide (corev1.Type_ addr = "InternalDNS" \/ corev1.Type_ addr = "ExternalDNS"
                      \/ corev1.Type_ addr = "Hostname")) as [Hty|Hty].
    + assert (Hne : corev1.Address addr <> san) by (apply Hno; [left; reflexivity | exact Hty]).
      replace (String.eqb (corev1.Type_ addr) "InternalDNS"
               || String.eqb (corev1.Type_ addr) "ExternalDNS"
               || String.eqb (corev1.Type_ addr) "Hostname") with true.
      * destruct (String.eqb_spec san (corev1.Address addr)) as [Heq|_]; [congruence|].
        rewrite IH by exact Hrest. simpl. rewrite <- app_assoc. reflexivity.
      * symmetry. rewrite !orb_true_iff, !String.eqb_eq. tauto.
    + replace (String.eqb (corev1.Type_ addr) "InternalDNS"
               || String.eqb (corev1.Type_ addr) "ExternalDNS"
               || String.eqb (corev1.Type_ addr) "Hostname") with false.
      * apply IH, Hrest.
      * symmetry. apply not_true_is_false. rewrite !orb_true_iff, !String.eqb_eq. tauto.
Qed.

Lemma ipSAN_loop_attempted (san : IP) (addresses : list corev1.NodeAddress)
  (attempted : list string) (found : bool) :
  (forall addr, In addr addresses ->
     corev1.Type_ addr = "InternalIP" \/ corev1.Type_ addr = "ExternalIP" ->
     corev1.Address addr <> IP_String san) ->
  fold_left (ipSAN_step san) addresses (attempted, found)
  = ((attempted ++ map corev1.Address
        (filter (fun addr => corev1.Type_ addr = "InternalIP"
                             \/ corev1.Type_ addr = "ExternalIP") addresses))%list,
     found).
Proof.
  revert attempted. induction addresses as [|addr rest IH]; intros attempted Hno; simpl.
  - rewrite app_nil_r. reflexivity.
  - rewrite filter_cons.
    change corev1.NodeInternalIP with "InternalIP".
    change corev1.NodeExternalIP with "ExternalIP".
    assert (Hrest : forall a, In a rest ->
              corev1.Type_ a = "InternalIP" \/ corev1.Type_ a = "ExternalIP" ->
              corev1.Address a <> IP_String san)
      by (intros a Ha; apply Hno; right; exact Ha).
    destruct (decide (corev1.Type_ addr = "InternalIP" \/ corev1.Type_ addr = "ExternalIP"))
      as [Hty|Hty].
    + assert (Hne : corev1.Address addr <> IP_String san)
        by (apply Hno; [left; reflexivity | exact Hty]).
      replace (String.eqb (corev1.Type_ addr) "InternalIP"
               || String.eqb (corev1.Type_ addr) "ExternalIP") with true.
      * destruct (String.eqb_spec (IP_String san) (corev1.Address addr)) as [Heq|_];
          [congruence|].
        rewrite IH by exact Hrest. simpl. rewrite <- app_assoc. reflexivity.
      * symmetry. rewrite !orb_true_iff, !String.eqb_eq. tauto.
    + replace (String.eqb (corev1.Type_ addr) "InternalIP"
               || String.eqb (corev1.Type_ addr) "ExternalIP") with false.
      * apply IH, Hrest.
      * symmetry. apply not_true_is_false. rewrite !orb_true_iff, !String.eqb_eq. tauto.
Qed.

Lemma checkDNSNames_first_missing (m : machinev1.Machine)
  (before after : list string) (san : string) :
  (forall s, In s before -> s <> "" -> dnsSANOnMachine m s) ->
  san <> "" -> ~ dnsSANOnMachine m san ->
  checkDNSNames (machinev1.Addresses (machinev1.Status m)) (before ++ san :: after)
  = Some (Errorf "DNS name '%s' not in machine names: %s"
            [Str san; Str (strings_Join (machineDNSNames m) " ")]).
Proof.
  intros Hbefore Hne Hmiss. induction before as [|s before IH]; simpl.
  - apply len_string_0_false in Hne. rewrite Hne.
    rewrite dnsSAN_loop_attempted.
    + reflexivity.
    + intros addr Hin Hty Haddr. apply Hmiss. exists addr. auto.
  - assert (IH' := IH (fun s' Hs' => Hbefore s' (or_intror Hs'))).
    destruct (len_string s =? 0) eqn:Hlen; [exact IH'|].
    apply len_string_0_false in Hlen.
    assert (Hon : dnsSANOnMachine m s) by (apply Hbefore; [left; reflexivity | exact Hlen]).
    pose proof (proj2 (dnsSAN_loop s m ([], false)) (or_intror Hon)) as Hfound.
    destruct (fold_left (dnsSAN_step s) _ ([], false)) as [attempted found].
    simpl in Hfound. rewrite Hfound. exact IH'.
Qed.

Lemma checkIPAddresses_first_missing (m : machinev1.Machine)
  (before after : list IP) (san : IP) :
  (forall s, In s before -> s <> [] -> ipSANOnMachine m s) ->
  san <> [] -> ~ ipSANOnMachine m san ->
  checkIPAddresses (machinev1.Addresses (machinev1.Status m)) (before ++ san :: after)
  = Some (Errorf "IP address '%s' not in machine addresses: %s"
            [Str (IP_String san); Str (strings_Join (machineIPs m) " ")]).
Proof.
  intros Hbefore Hne Hmiss. induction before as [|s before IH]; simpl.
  - destruct (len san =? 0) eqn:Hlen; [apply len_0 in Hlen; contradiction|].
    rewrite ipSAN_loop_attempted.
    + reflexivity.
    + intros addr Hin Hty Haddr. apply Hmiss. exists addr. auto.
  - assert (IH' := IH (fun s' Hs' => Hbefore s' (or_intror Hs'))).
    destruct (len s =? 0) eqn:Hlen; [exact IH'|].
    assert (Hs : s <> []) by (intros ->; discriminate).
    assert (Hon : ipSANOnMachine m s) by (apply Hbefore; [left; reflexivity | exact Hs]).
    pose proof (proj2 (ipSAN_loop s m ([], false)) (or_intror Hon)) as Hfound.
    destruct (fold_left (ipSAN_step s) _ ([], false)) as [attempted found].
    simpl in Hfound. rewrite Hfound. exact IH'.
Qed.

(** X26: on the machine-api path the error for a DNS SAN names the first
    non-empty DNS SAN of the request that is not among the Machine's
    InternalDNS, ExternalDNS and Hostname addresses, and lists those
    addresses in the Machine's order. *)
Theorem authorizeCSR_serving_DNS_error (c : Client)
  (config : ClusterMachineApproverConfig) (machines : list machinev1.Machine)
  (req : CSR) (csr : CertificateRequest) (ca : option CertPool)
  (askingName : string) (m : machinev1.Machine) (before after : list string)
  (san : string) :
  isNodeClientCert req csr = false ->
  servingShape req csr askingName ->
  ~ renewalApproves c askingName csr ca ->
  firstWithNodeRef askingName machines m ->
  x509.csr_DNSNames csr = (before ++ san :: after)%list ->
  (forall s, In s before -> s <> "" -> dnsSANOnMachine m s) ->
  san <> "" -> ~ dnsSANOnMachine m san ->
  authorizeCSR c config machines (Some req) (Some csr) ca
  = (false, Some (Errorf "DNS name '%s' not in machine names: %s"
                    [Str san; Str (strings_Join (machineDNSNames m) " ")])).
Proof.
  intros Hclient Hshape Hrenew Hfirst Hdns Hbefore Hne Hmiss.
  rewrite (authorizeCSR_serving c config machines req csr ca askingName Hclient Hshape).
  rewrite <- authorizeCSR_renewal_iff in Hrenew. apply not_true_is_false in Hrenew.
  rewrite Hrenew. unfold authorizeCSR_machineAPI.
  rewrite (findMatchingMachineFromNodeRef_first _ _ _ Hfirst). simpl.
  rewrite Hdns, (checkDNSNames_first_missing m before after san Hbefore Hne Hmiss).
  reflexivity.
Qed.

(** X27: on the machine-api path, when every non-empty DNS SAN is on the
    Machine, the error for an IP SAN names the first non-empty IP SAN of
    the request that is not among the Machine's InternalIP and ExternalIP
    addresses, and lists those addresses in the Machine's order. *)
Theorem authorizeCSR_serving_IP_error (c : Client)
  (config : ClusterMachineApproverConfig) (machines : list machinev1.Machine)
  (req : CSR) (csr : CertificateRequest) (ca : option CertPool)
  (askingName : string) (m : machinev1.Machine) (before after : list IP) (san : IP) :
  isNodeClientCert req csr = false ->
  servingShape req csr askingName ->
  ~ renewalApproves c askingName csr ca ->
  firstWithNodeRef askingName machines m ->
  (forall s, In s (x509.csr_DNSNames csr) -> s <> "" -> dnsSANOnMachine m s) ->
  x509.csr_IPAddresses csr = (before ++ san :: after)%list ->
  (forall s, In s before -> s <> [] -> ipSANOnMachine m s) ->
  san <> [] -> ~ ipSANOnMachine m san ->
  authorizeCSR c config machines (Some req) (Some csr) ca
  = (false, Some (Errorf "IP address '%s' not in machine addresses: %s"
                    [Str (IP_String san); Str (strings_Join (machineIPs m) " ")])).
Proof.
  intros Hclient Hshape Hrenew Hfirst Hdns Hips Hbefore Hne Hmiss.
  rewrite (authorizeCSR_serving c config machines req csr ca askingName Hclient Hshape).
  rewrite <- authorizeCSR_renewal_iff in Hrenew. apply not_true_is_false in Hrenew.
  rewrite Hrenew. unfold authorizeCSR_machineAPI.
  rewrite (findMatchingMachineFromNodeRef_first _ _ _ Hfirst). simpl.
  apply checkDNSNames_None in Hdns. rewrite Hdns.
  rewrite Hips, (checkIPAddresses_first_missing m before after san Hbefore Hne Hmiss).
  reflexivity.
Qed.

Lemma classic_serving (req : CSR) (csr : CertificateRequest) name err :
  validateCSRContents req csr = (name, err) ->
  servingShape req csr name \/ forall askingName, ~ servingShape req csr askingName.
Proof.
  intros Hv. destruct err as [e|].
  - right. intros n Hshape. apply validateCSRContents_servingShape in Hshape.
    destruct Hshape as [Hv' _]. congruence.
  - destruct (String.eqb_spec name "") as [->|Hne].
    + right. intros n Hshape. apply validateCSRContents_servingShape in Hshape.
      destruct Hshape as [Hv' Hn]. congruence.
    + left. apply validateCSRContents_servingShape. auto.
Qed.

(** *** Every approval, accounted for *)

(** X28: [authorizeCSR] approves a request in exactly two ways: as a
    client-certificate request, with the flow enabled, from the node
    bootstrapper, for a node that does not exist yet and whose first
    Machine by InternalDNS address is unbound and was created less than
    2h before and less than 10s after the CSR; or as a node-serving
    request that the renewal flow approves or whose non-empty DNS and IP
    SANs are all addresses of the first Machine bound to the node.  With
    the client flow disabled a client-certificate request always comes
    back as [(false, err)]. *)
Theorem authorizeCSR_approves_iff (c : Client)
  (config : ClusterMachineApproverConfig) (machines : list machinev1.Machine)
  (req : CSR) (csr : CertificateRequest) (ca : option CertPool) :
  (authorizeCSR c config machines (Some req) (Some csr) ca = (true, None) <->
   (isNodeClientCert req csr = true /\
    Disabled (NodeClientCert_ config) = false /\
    fromNodeBootstrapper req /\
    bootstrapNodeName csr <> "" /\
    nodeNotFound c (bootstrapNodeName csr) /\
    exists m, firstWithInternalDNS (bootstrapNodeName csr) machines m /\
      machinev1.NodeRef (machinev1.Status m) = None /\
      machinev1.CreationTimestamp m - 10 * 1000000000
        < certificatesv1.CreationTimestamp req /\
      certificatesv1.CreationTimestamp req
        < machinev1.CreationTimestamp m + 2 * 3600 * 1000000000) \/
   (isNodeClientCert req csr = false /\
    exists askingName, servingShape req csr askingName /\
      (renewalApproves c askingName csr ca \/
       exists m, firstWithNodeRef askingName machines m /\ sansOnMachine csr m))) /\
  (isNodeClientCert req csr = true -> Disabled (NodeClientCert_ config) = true ->
   exists err, authorizeCSR c config machines (Some req) (Some csr) ca = (false, Some err)).
Proof.
  split.
  - destruct (isNodeClientCert req csr) eqn:Hclient.
    + assert (Hrun : authorizeCSR c config machines (Some req) (Some csr) ca
                     = if Disabled (NodeClientCert_ config)
                       then (false, Some (Errorf
                              "CSR %s for node client cert rejected as the flow is disabled"
                              [Str (certificatesv1.Name req)]))
                       else authorizeNodeClientCSR c machines req csr).
      { unfold authorizeCSR. rewrite Hclient. reflexivity. }
      rewrite Hrun. destruct (Disabled (NodeClientCert_ config)).
      * split; [discriminate|]. intros [(_ & Habs & _) | (Habs & _)]; discriminate.
      * rewrite authorizeNodeClientCSR_true_iff. split.
        -- intros Hboot. left. auto.
        -- intros [(_ & _ & Hboot) | (Habs & _)]; [exact Hboot | discriminate].
    + destruct (validateCSRContents req csr) as [name err] eqn:Hv.
      destruct (classic_serving req csr name err Hv) as [Hshape | Hnone].
      * rewrite (authorizeCSR_serving_true_iff c config machines req csr ca name
                   Hclient Hshape).
        split.
        -- intros Hok. right. split; [reflexivity|]. exists name. auto.
        -- intros [(Habs & _) | (_ & name' & Hshape' & Hok)]; [discriminate|].
           apply validateCSRContents_servingShape in Hshape'.
           destruct Hshape' as [Hv' _]. rewrite Hv in Hv'. injection Hv' as <- _.
           exact Hok.
      * assert (Hrun : authorizeCSR c config machines (Some req) (Some csr) ca
                       = (false, None)).
        { unfold authorizeCSR. rewrite Hclient, Hv.
          destruct err; [rewrite orb_true_r; reflexivity|].
          destruct (String.eqb_spec name "") as [->|Hne]; [reflexivity|].
          exfalso. apply (Hnone name). apply validateCSRContents_servingShape. auto. }
        rewrite Hrun. split; [discriminate|].
        intros [(Habs & _) | (_ & name' & Hshape' & _)]; [discriminate|].
        exfalso. exact (Hnone name' Hshape').
  - intros Hclient Hoff. unfold authorizeCSR. rewrite Hclient, Hoff.
    eexists. reflexivity.
Qed.

End Further.

(** ** The further properties, run on the scenarios *)

Section FurtherScenarios.
#[local] Existing Instance scenario.

Ltac evaluate :=
  vm_compute; first [reflexivity | discriminate | intros Habs; discriminate Habs].

Ltac bootstrapper := apply isReqFromNodeBootstrapper_iff; evaluate.

Ltac not_found := eexists; split; vm_compute; reflexivity.

Ltac serving_shape :=
  unfold servingShape; simpl;
  repeat split; first [reflexivity | discriminate | tauto].

Lemma m2_is_first_for_node_6 : firstWithNodeRef "ip-10-0-1-6" [machine_m2] machine_m2.
Proof.
  exists [], []. split; [reflexivity|]. split; [constructor|].
  exists {| corev1.Name := "ip-10-0-1-6" |}. split; reflexivity.
Qed.

Lemma m1_is_first_for_node_5 (after : list machinev1.Machine) :
  firstWithInternalDNS "ip-10-0-1-5" (machine_m1 :: after) machine_m1.
Proof.
  exists [], after. split; [reflexivity|]. split; [constructor|].
  exists {| corev1.Type_ := "InternalDNS"; corev1.Address := "ip-10-0-1-5" |}.
  split; [left; reflexivity | split; reflexivity].
Qed.

Lemma node_6_DNS_on_m2 : dnsSANOnMachine machine_m2 "ip-10-0-1-6".
Proof.
  exists {| corev1.Type_ := "InternalDNS"; corev1.Address := "ip-10-0-1-6" |}.
  split; [right; left; reflexivity|]. split; [left; reflexivity | reflexivity].
Qed.

Lemma no_CA_no_renewal (c : Client) (name : string) (csr : x509.CertificateRequest URL) :
  ~ renewalApproves c name csr None.
Proof. intros (pool & cert & Hca & _). discriminate. Qed.

Lemma validateCSRContents_usages_witness :
  Permutation (certificatesv1.Usages (certificatesv1.Spec servingRequest))
    ["digital signature"; "key encipherment"; "server auth"]%string.
Proof.
  apply (validateCSRContents_usages servingRequest (servingCSR ip_10_0_1_6) "ip-10-0-1-6");
    evaluate.
Defined.

(** An administrator's request is neither shape. *)
Lemma authorizeCSR_ignores_other_requests_witness :
  authorizeCSR cluster config_enabled [machine_m1; machine_m2] (Some adminRequest)
    (Some adminCSR) (Some tt) = (false, None).
Proof.
  apply (authorizeCSR_ignores_other_requests cluster config_enabled
           [machine_m1; machine_m2] adminRequest adminCSR (Some tt)).
  - evaluate.
  - intros name (Huser & _). vm_compute in Huser. discriminate Huser.
Defined.

Lemma authorizeCSR_serving_approves_iff_witness :
  authorizeCSR cluster config_enabled [machine_m2] (Some servingRequest)
    (Some (servingCSR ip_10_0_1_6)) None = (true, None).
Proof.
  apply (authorizeCSR_serving_approves_iff cluster config_enabled [machine_m2]
           servingRequest (servingCSR ip_10_0_1_6) None "ip-10-0-1-6").
  - evaluate.
  - serving_shape.
  - right. exists machine_m2. split; [apply m2_is_first_for_node_6|].
    split; intros san [<- | []] _.
    + apply node_6_DNS_on_m2.
    + exists {| corev1.Type_ := "InternalIP"; corev1.Address := "10.0.1.6" |}.
      split; [left; reflexivity|]. split; [left; reflexivity | reflexivity].
Defined.


(** A node, not the bootstrapper, asks for a client certificate. *)
Lemma authorizeNodeClientCSR_not_bootstrap_witness :
  authorizeNodeClientCSR cluster [machine_m1] servingRequest (clientCSR "ip-10-0-1-5")
  = (false, None) /\
  authorizeNodeClientCSR cluster [machine_m1]
    (bootstrapRequest (T0 + 5 * time.Minute)) (clientCSR "") = (false, None).
Proof.
  split.
  - apply (authorizeNodeClientCSR_not_bootstrap cluster [machine_m1] servingRequest
             (clientCSR "ip-10-0-1-5")).
    left. intros (Huser & _). vm_compute in Huser. discriminate Huser.
  - apply (authorizeNodeClientCSR_not_bootstrap cluster [machine_m1]
             (bootstrapRequest (T0 + 5 * time.Minute)) (clientCSR "")).
    right. evaluate.
Defined.

Lemma recentlyPendingCSRs_bounds_witness :
  0 <= recentlyPendingCSRs T0 backlog <= len backlog.
Proof. apply (recentlyPendingCSRs_bounds T0 backlog). evaluate. Defined.

Lemma recentlyPendingCSRs_app_witness :
  recentlyPendingCSRs T0 (backlog ++ backlog)
  = recentlyPendingCSRs T0 backlog + recentlyPendingCSRs T0 backlog
  /\ recentlyPendingCSRs T0 backlog <= recentlyPendingCSRs T0 (backlog ++ backlog).
Proof. apply (recentlyPendingCSRs_app T0 backlog backlog). evaluate. Defined.

Lemma recentlyPendingCSRs_Permutation_witness :
  recentlyPendingCSRs T0 backlog = recentlyPendingCSRs T0 (rev backlog).
Proof.
  apply (recentlyPendingCSRs_Permutation T0 backlog (rev backlog)).
  - evaluate.
  - apply Permutation_rev.
Defined.

Lemma renewal_SAN_listings_agree_witness :
  Permutation (certSANs (Some kubeletCert)) (csrSANs (Some (servingCSR ip_10_0_1_6))).
Proof.
  apply (renewal_SAN_listings_agree "ip-10-0-1-6" (servingCSR ip_10_0_1_6) kubeletCert
           {| x509.Roots := Some tt |}).
  evaluate.
Defined.

(** A request for a name the Machine does not carry. *)
Lemma authorizeCSR_serving_DNS_error_witness :
  authorizeCSR cluster config_enabled [machine_m2] (Some servingRequest)
    (Some (servingCSR_named ["ip-10-0-1-6"; ""; "kube-apiserver.example.com"; "other"]))
    None
  = (false, Some (Errorf "DNS name '%s' not in machine names: %s"
                    [Str "kube-apiserver.example.com"; Str "ip-10-0-1-6"])).
Proof.
  apply (authorizeCSR_serving_DNS_error cluster config_enabled [machine_m2]
           servingRequest
           (servingCSR_named ["ip-10-0-1-6"; ""; "kube-apiserver.example.com"; "other"])
           None "ip-10-0-1-6" machine_m2 ["ip-10-0-1-6"; ""] ["other"]
           "kube-apiserver.example.com").
  - evaluate.
  - serving_shape.
  - apply no_CA_no_renewal.
  - apply m2_is_first_for_node_6.
  - reflexivity.
  - intros s [<- | [<- | []]] Hne; [apply node_6_DNS_on_m2 | contradiction].
  - discriminate.
  - intros (addr & Hin & _ & Haddr). simpl in Hin.
    destruct Hin as [<- | [<- | []]]; discriminate Haddr.
Defined.

(** Scenario 4 of the specification, with its error. *)
Lemma authorizeCSR_serving_IP_error_witness :
  authorizeCSR cluster config_enabled [machine_m2] (Some servingRequest)
    (Some (servingCSR ip_10_0_2_2)) None
  = (false, Some (Errorf "IP address '%s' not in machine addresses: %s"
                    [Str "10.0.2.2"; Str "10.0.1.6"])).
Proof.
  apply (authorizeCSR_serving_IP_error cluster config_enabled [machine_m2]
           servingRequest (servingCSR ip_10_0_2_2) None "ip-10-0-1-6" machine_m2
           [] [] ip_10_0_2_2).
  - evaluate.
  - serving_shape.
  - apply no_CA_no_renewal.
  - apply m2_is_first_for_node_6.
  - intros s [<- | []] _. apply node_6_DNS_on_m2.
  - reflexivity.
  - intros s [].
  - discriminate.
  - intros (addr & Hin & _ & Haddr). simpl in Hin.
    destruct Hin as [<- | [<- | []]]; vm_compute in Haddr; discriminate Haddr.
Defined.

Lemma validateCSRContents_declines_witness :
  validateCSRContents adminRequest adminCSR = ("", None).
Proof.
  apply (validateCSRContents_declines adminRequest adminCSR).
  intros rest _ Huser. vm_compute in Huser. discriminate Huser.
Defined.

(** The groups in another order, one of them twice. *)
Lemma isReqFromNodeBootstrapper_spec_witness :
  isReqFromNodeBootstrapper
    (bootstrapRequestWithGroups
       [ "system:authenticated"; "system:serviceaccounts";
         "system:serviceaccounts:openshift-machine-config-operator";
         "system:authenticated" ])
  = isReqFromNodeBootstrapper (bootstrapRequest (T0 + 5 * time.Minute)).
Proof.
  apply (isReqFromNodeBootstrapper_spec (bootstrapRequest (T0 + 5 * time.Minute))).
  - reflexivity.
  - intros g. simpl. tauto.
Defined.

(** Scenario 1 of the specification. *)
Lemma authorizeNodeClientCSR_approves_iff_witness :
  authorizeNodeClientCSR cluster [machine_m1; machine_m2]
    (bootstrapRequest (T0 + 5 * time.Minute)) (clientCSR "ip-10-0-1-5") = (true, None).
Proof.
  apply (authorizeNodeClientCSR_approves_iff cluster [machine_m1; machine_m2]
           (bootstrapRequest (T0 + 5 * time.Minute)) (clientCSR "ip-10-0-1-5")).
  split; [bootstrapper|]. split; [evaluate|]. split; [not_found|].
  exists machine_m1. split; [apply m1_is_first_for_node_5|].
  split; [reflexivity|]. split; evaluate.
Defined.

(** The probe of scenario 5. *)
Lemma getServingCert_success_iff_witness :
  @getServingCert scenario cluster "ip-10-0-1-6" (Some tt) = (Some kubeletCert, None).
Proof.
  apply (@getServingCert_success_iff scenario cluster "ip-10-0-1-6" (Some tt) kubeletCert).
  exists tt, node_6, [],
    {| corev1.Type_ := "InternalIP"; corev1.Address := "10.0.1.6" |}, [], [].
  repeat split; first [reflexivity | constructor].
Defined.

(** Scenarios 1 and 3 of the specification, through the dispatcher. *)
Lemma authorizeCSR_approves_iff_witness :
  authorizeCSR cluster config_enabled [machine_m1; machine_m2]
    (Some (bootstrapRequest (T0 + 5 * time.Minute))) (Some (clientCSR "ip-10-0-1-5")) None
  = (true, None) /\
  authorizeCSR cluster config_enabled [machine_m2] (Some servingRequest)
    (Some (servingCSR ip_10_0_1_6)) None = (true, None).
Proof.
  split.
  - apply (authorizeCSR_approves_iff cluster config_enabled [machine_m1; machine_m2]
             (bootstrapRequest (T0 + 5 * time.Minute)) (clientCSR "ip-10-0-1-5") None).
    left. split; [evaluate|]. split; [reflexivity|].
    split; [bootstrapper|]. split; [evaluate|]. split; [not_found|].
    exists machine_m1. split; [apply m1_is_first_for_node_5|].
    split; [reflexivity|]. split; evaluate.
  - apply (authorizeCSR_approves_iff cluster config_enabled [machine_m2]
             servingRequest (servingCSR ip_10_0_1_6) None).
    right. split; [evaluate|]. exists "ip-10-0-1-6"%string. split; [serving_shape|].
    right. exists machine_m2. split; [apply m2_is_first_for_node_6|].
    split; intros san [<- | []] _.
    + apply node_6_DNS_on_m2.
    + exists {| corev1.Type_ := "InternalIP"; corev1.Address := "10.0.1.6" |}.
      split; [left; reflexivity|]. split; [left; reflexivity | reflexivity].
Defined.

End FurtherScenarios.
